(** * Reactor simulation: a shallow embedding of [reactor/simulation.go]

    The Go package keeps one [Reactor] value whose methods mutate it in
    place under a lock.  Here every method is a function on a [World]: the
    [Reactor] struct, the heap of [FuelRod] objects the struct points into,
    and the state of the global [math/rand] generator.

    Modelling choices.
    - [float64] is IEEE-754 binary64: the primitive floats, whose operations
      round to nearest-even, overflow to the infinities, underflow through
      the subnormals to zero and propagate NaN as the hardware does.  Every
      arithmetic operator of the source is one rounded operation, taken in
      the order in which the source writes it (no fused multiply-add).
    - [math.Round] is modelled on the binary representation of its
      argument.
    - [ReactorStatus] ([uint32]) is a [Z] handled with [Z.land], [Z.lor],
      [Z.ldiff] and [Z.shiftl].
    - [*FuelRod] is an optional heap address: the struct is copied by value
      by [Snapshot], the object it points to is not.
    - [rand.Float64()] reads the next element of a stream of draws.
    - The embedded [sync.RWMutex] serialises the methods; one method call is
      one atomic step of the model. *)

From Stdlib Require Import ZArith Lia List Bool Floats.
From Stdlib Require String.
Import String.StringSyntax.
Delimit Scope string_scope with string.
Import ListNotations.
Open Scope float_scope.
Set Warnings "-inexact-float".

(** ** Numbers *)

Definition float64 := float.

(** Go's comparison operators [>] and [>=] on [float64]; [<] and [<=] are
    the primitive [<?] and [<=?].  Every comparison with a NaN is false. *)
Definition gtb (a b : float64) : bool := b <? a.
Definition geb (a b : float64) : bool := b <=? a.

Infix ">?" := gtb (at level 70, no associativity) : float_scope.
Infix ">=?" := geb (at level 70, no associativity) : float_scope.

(** Internal helpers of the package. *)
Definition min (a b : float64) : float64 := if a <? b then a else b.
Definition max (a b : float64) : float64 := if a >? b then a else b.
Definition clamp (v lo hi : float64) : float64 :=
  if v <? lo then lo else if v >? hi then hi else v.

(** The float of the integer of magnitude [n] and sign [s] (a negative
    sign on 0 gives the negative zero). *)
Definition ofInt (s : bool) (n : Z) : float64 :=
  SF2Prim (binary_normalize prec emax (cond_Zopp s n) 0 s).

(** [math.Round]: the nearest integer, halves away from zero; NaN, the
    infinities and the zeros are returned as they are.  A finite float is
    [m * 2^e] up to its sign: with [e >= 0] it is an integer already,
    otherwise its magnitude is rounded to [floor (m / 2^(-e) + 1/2)]. *)
Definition Round (x : float64) : float64 :=
  match Prim2SF x with
  | S754_finite s m e =>
      if (0 <=? e)%Z then x
      else ofInt s ((Zpos m + 2 ^ (- e - 1)) / 2 ^ (- e))
  | _ => x
  end.

(** ** Status flags *)

Definition ReactorStatus := Z.

Definition StatusNone : ReactorStatus := 0%Z.
Definition StatusTempLow : ReactorStatus := Z.shiftl 1 0.
Definition StatusOverheat : ReactorStatus := Z.shiftl 1 1.
Definition StatusOutputLow : ReactorStatus := Z.shiftl 1 2.
Definition StatusOutputHigh : ReactorStatus := Z.shiftl 1 3.
Definition StatusFuelLow : ReactorStatus := Z.shiftl 1 4.
Definition StatusFuelOut : ReactorStatus := Z.shiftl 1 5.
Definition StatusMeltdown : ReactorStatus := Z.shiftl 1 6.
Definition StatusScram : ReactorStatus := Z.shiftl 1 7.

(** [s & flag != 0] *)
Definition hasFlag (s flag : ReactorStatus) : bool :=
  negb (Z.land s flag =? 0)%Z.

(** The eight flags of the bitset. *)
Definition flags : list ReactorStatus :=
  [StatusTempLow; StatusOverheat; StatusOutputLow; StatusOutputHigh;
   StatusFuelLow; StatusFuelOut; StatusMeltdown; StatusScram].

(** ** Data *)

Record FuelRod := mkFuelRod { Condition : float64 }.

(** The field [FuelRod *FuelRod] is [FuelRodPtr]: [None] is [nil]. *)
Record ReactorState := mkState {
  IsPoweredOn : bool;
  IsAutoControl : bool;
  Temperature : float64;
  FissionRate : float64;
  TurbineOutput : float64;
  PowerOutput : float64;
  PowerLoad : float64;
  FuelRodPtr : option nat;
  Status : ReactorStatus
}.

Record Reactor := mkReactor {
  state : ReactorState;
  MAX_TEMP : float64;
  MAX_POWER_OUTPUT : float64;
  MELTDOWN_TEMP : float64;
  OVERHEAT_TEMP : float64;
  LOW_TEMP : float64;
  OPTIMAL_TEMP : float64;
  FUEL_CONSUMPTION_RATE : float64;
  HEAT_GENERATION_RATE : float64;
  AMBIENT_TEMP_DISSIPATION : float64;
  TURBINE_POWER_FACTOR : float64;
  LOW_FUEL_THRESHOLD : float64;
  baseLoad : float64;
  spikeTimer : float64;
  isSpiking : bool;
  spikeElapsed : float64;
  spikeDuration : float64;
  spikeMagnitude : float64
}.

(** Field assignments. *)
Definition set_IsPoweredOn (v : bool) (s : ReactorState) : ReactorState :=
  let 'mkState _ auto T fr tout po pl rod st := s in
  mkState v auto T fr tout po pl rod st.
Definition set_IsAutoControl (v : bool) (s : ReactorState) : ReactorState :=
  let 'mkState on _ T fr tout po pl rod st := s in
  mkState on v T fr tout po pl rod st.
Definition set_Temperature (v : float64) (s : ReactorState) : ReactorState :=
  let 'mkState on auto _ fr tout po pl rod st := s in
  mkState on auto v fr tout po pl rod st.
Definition set_FissionRate (v : float64) (s : ReactorState) : ReactorState :=
  let 'mkState on auto T _ tout po pl rod st := s in
  mkState on auto T v tout po pl rod st.
Definition set_TurbineOutput (v : float64) (s : ReactorState) : ReactorState :=
  let 'mkState on auto T fr _ po pl rod st := s in
  mkState on auto T fr v po pl rod st.
Definition set_PowerOutput (v : float64) (s : ReactorState) : ReactorState :=
  let 'mkState on auto T fr tout _ pl rod st := s in
  mkState on auto T fr tout v pl rod st.
Definition set_PowerLoad (v : float64) (s : ReactorState) : ReactorState :=
  let 'mkState on auto T fr tout po _ rod st := s in
  mkState on auto T fr tout po v rod st.
Definition set_FuelRodPtr (v : option nat) (s : ReactorState) : ReactorState :=
  let 'mkState on auto T fr tout po pl _ st := s in
  mkState on auto T fr tout po pl v st.
Definition set_Status (v : ReactorStatus) (s : ReactorState) : ReactorState :=
  let 'mkState on auto T fr tout po pl rod _ := s in
  mkState on auto T fr tout po pl rod v.

Definition set_state (v : ReactorState) (r : Reactor) : Reactor :=
  let 'mkReactor _ c1 c2 c3 c4 c5 c6 c7 c8 c9 c10 c11 bl tm sp el du mg := r in
  mkReactor v c1 c2 c3 c4 c5 c6 c7 c8 c9 c10 c11 bl tm sp el du mg.
Definition set_baseLoad (v : float64) (r : Reactor) : Reactor :=
  let 'mkReactor s c1 c2 c3 c4 c5 c6 c7 c8 c9 c10 c11 _ tm sp el du mg := r in
  mkReactor s c1 c2 c3 c4 c5 c6 c7 c8 c9 c10 c11 v tm sp el du mg.
Definition set_spikeTimer (v : float64) (r : Reactor) : Reactor :=
  let 'mkReactor s c1 c2 c3 c4 c5 c6 c7 c8 c9 c10 c11 bl _ sp el du mg := r in
  mkReactor s c1 c2 c3 c4 c5 c6 c7 c8 c9 c10 c11 bl v sp el du mg.
Definition set_isSpiking (v : bool) (r : Reactor) : Reactor :=
  let 'mkReactor s c1 c2 c3 c4 c5 c6 c7 c8 c9 c10 c11 bl tm _ el du mg := r in
  mkReactor s c1 c2 c3 c4 c5 c6 c7 c8 c9 c10 c11 bl tm v el du mg.
Definition set_spikeElapsed (v : float64) (r : Reactor) : Reactor :=
  let 'mkReactor s c1 c2 c3 c4 c5 c6 c7 c8 c9 c10 c11 bl tm sp _ du mg := r in
  mkReactor s c1 c2 c3 c4 c5 c6 c7 c8 c9 c10 c11 bl tm sp v du mg.

(** [r.state.f = v] *)
Definition on_state (f : ReactorState -> ReactorState) (r : Reactor) : Reactor :=
  set_state (f (state r)) r.

(** ** The heap of fuel rods

    Addresses are positions in the list; an allocation appends.  A Go pointer
    always refers to a live object, so the default of [load] is never read
    through a pointer the program holds. *)

Definition Heap := list FuelRod.

Definition load (h : Heap) (p : nat) : FuelRod := nth p h (mkFuelRod 0).

Fixpoint store (h : Heap) (p : nat) (v : FuelRod) : Heap :=
  match h, p with
  | [], _ => []
  | _ :: t, O => v :: t
  | x :: t, S p' => x :: store t p' v
  end.

(** [&FuelRod{...}] *)
Definition alloc (h : Heap) (v : FuelRod) : nat * Heap :=
  (length h, h ++ [v]).

(** ** The random generator *)

Record Rng := mkRng { draws : nat -> float64; cursor : nat }.

(** [rand.Float64()] *)
Definition Float64 (g : Rng) : float64 * Rng :=
  (draws g (cursor g), mkRng (draws g) (S (cursor g))).

(** Every draw lies in the half-open interval [0, 1). *)
Definition unit_draws (g : Rng) : Prop :=
  forall n, (0 <=? draws g n) = true /\ (draws g n <? 1) = true.

(** ** The world a method call runs in *)

Record World := mkWorld { reactor : Reactor; heap : Heap; rand : Rng }.

Definition on_reactor (f : Reactor -> Reactor) (w : World) : World :=
  let 'mkWorld r h g := w in mkWorld (f r) h g.

(** ** Construction *)

(** [NewReactor]: the constants, the grid-load sub-state and a balanced
    initial state with a freshly allocated fuel rod. *)
Definition NewReactor (h : Heap) : Reactor * Heap :=
  let OVERHEAT := 600 in
  let OPTIMAL := 350 in
  let HEAT_GENERATION := 800 in
  let AMBIENT := 0.05 in
  let TURBINE_FACTOR := 8 in
  let initialLoad := 1000 in
  let initialTemp := OPTIMAL in
  let initialTurbine :=
    initialLoad / (initialTemp / 100 * (initialTemp / OVERHEAT) * TURBINE_FACTOR) in
  let heatConsumed := (initialLoad / TURBINE_FACTOR) + (initialTemp * AMBIENT) in
  let initialFission := (heatConsumed * 100) / HEAT_GENERATION in
  let (rod, h) := alloc h (mkFuelRod 100) in
  (mkReactor
     (mkState true true initialTemp initialFission initialTurbine
              initialLoad initialLoad (Some rod) StatusNone)
     1000 5000 900 OVERHEAT 200 OPTIMAL 0.05 HEAT_GENERATION AMBIENT
     TURBINE_FACTOR 20
     initialLoad 10 false 0 10 1000,
   h).

(** The process as it starts: one reactor over an empty heap. *)
Definition initWorld (g : Rng) : World :=
  let (r, h) := NewReactor [] in mkWorld r h g.

(** The reactor carries the constants [NewReactor] gives it; no method
    assigns them. *)
Definition configured (r : Reactor) : Prop :=
  MAX_TEMP r = 1000 /\ MAX_POWER_OUTPUT r = 5000 /\ MELTDOWN_TEMP r = 900 /\
  OVERHEAT_TEMP r = 600 /\ LOW_TEMP r = 200 /\ OPTIMAL_TEMP r = 350 /\
  FUEL_CONSUMPTION_RATE r = 0.05 /\ HEAT_GENERATION_RATE r = 800 /\
  AMBIENT_TEMP_DISSIPATION r = 0.05 /\ TURBINE_POWER_FACTOR r = 8 /\
  LOW_FUEL_THRESHOLD r = 20 /\ spikeDuration r = 10 /\ spikeMagnitude r = 1000.

(** ** The tick *)

Definition runAutoControlLocked (r : Reactor) : Reactor :=
  let powerError := PowerLoad (state r) - PowerOutput (state r) in
  let r := on_state (set_TurbineOutput (TurbineOutput (state r) + powerError * 0.01)) r in
  let tempError := OPTIMAL_TEMP r - Temperature (state r) in
  let r := on_state (set_FissionRate (FissionRate (state r) + tempError * 0.002)) r in
  let r := on_state (set_FissionRate (clamp (FissionRate (state r)) 0 100)) r in
  on_state (set_TurbineOutput (clamp (TurbineOutput (state r)) 0 100)) r.

Definition updateStatusLocked (h : Heap) (r : Reactor) : Reactor :=
  let s := state r in
  (* preserve scram *)
  let current := Z.land (Status s) StatusScram in
  let current :=
    if Temperature s >=? MELTDOWN_TEMP r then Z.lor current StatusMeltdown
    else if Temperature s >=? OVERHEAT_TEMP r then Z.lor current StatusOverheat
    else if (Temperature s <? LOW_TEMP r) && IsPoweredOn s && (PowerOutput s >? 0)
         then Z.lor current StatusTempLow
    else current in
  let powerDifference := PowerOutput s - PowerLoad s in
  let current :=
    if (powerDifference >? PowerLoad s * 0.2) && (PowerLoad s >? 100)
    then Z.lor current StatusOutputHigh else current in
  let current :=
    if (powerDifference <? (- PowerLoad s) * 0.2) && (PowerLoad s >? 100)
    then Z.lor current StatusOutputLow else current in
  let '(current, rod) :=
    match FuelRodPtr s with
    | None => (Z.lor current StatusFuelOut, None)
    | Some p =>
        if Condition (load h p) <=? 0 then (Z.lor current StatusFuelOut, None)
        else if Condition (load h p) <? LOW_FUEL_THRESHOLD r
             then (Z.lor current StatusFuelLow, Some p)
        else (current, Some p)
    end in
  on_state (set_Status current) (on_state (set_FuelRodPtr rod) r).

Definition updateGridLoad (delta : float64) (r : Reactor) (g : Rng) : Reactor * Rng :=
  (* 1. random walk for the base load *)
  let (u, g) := Float64 g in
  let change := (u * 24) - 12 in
  let r := set_baseLoad (baseLoad r + change) r in
  let r := set_baseLoad (clamp (baseLoad r) 800 2100) r in
  (* 2. spike logic *)
  let spikeVal := 0 in
  let '(r, g, spikeVal) :=
    if negb (isSpiking r) then
      let r := set_spikeTimer (spikeTimer r - delta) r in
      if spikeTimer r <=? 0 then
        let r := set_isSpiking true r in
        let r := set_spikeElapsed 0 r in
        let (u, g) := Float64 g in
        (set_spikeTimer (10 + u * 5) r, g, spikeVal)
      else (r, g, spikeVal)
    else
      let r := set_spikeElapsed (spikeElapsed r + delta) r in
      if spikeElapsed r >=? spikeDuration r then
        (set_isSpiking false r, g, spikeVal)
      else
        let decayFactor := 1 - (spikeElapsed r / spikeDuration r) in
        (r, g, spikeMagnitude r * decayFactor) in
  (on_state (set_PowerLoad (Round (baseLoad r + spikeVal))) r, g).

Definition Update (delta : float64) (w : World) : World :=
  let (r, g) := updateGridLoad delta (reactor w) (rand w) in
  let h := heap w in
  if negb (IsPoweredOn (state r)) || hasFlag (Status (state r)) StatusScram then
    (* shutdown cooling behaviour *)
    let r := on_state (set_FissionRate 0) r in
    let tempEfficiency := min 1 (Temperature (state r) / OVERHEAT_TEMP r) in
    let potentialPower :=
      Temperature (state r) * (TurbineOutput (state r) / 100) * tempEfficiency in
    let r := on_state (set_PowerOutput
                         (min (MAX_POWER_OUTPUT r)
                              (potentialPower * TURBINE_POWER_FACTOR r))) r in
    let heatConsumedByTurbine := PowerOutput (state r) / TURBINE_POWER_FACTOR r in
    let ambientCooling := Temperature (state r) * (AMBIENT_TEMP_DISSIPATION r * 2) in
    let r := on_state (set_Temperature
                         (Temperature (state r)
                          - (heatConsumedByTurbine + ambientCooling) * delta)) r in
    let r := if Temperature (state r) <? 0
             then on_state (set_PowerOutput 0) (on_state (set_Temperature 0) r)
             else r in
    mkWorld (updateStatusLocked h r) h g
  else
    let r := if IsAutoControl (state r) then runAutoControlLocked r else r in
    let '(r, h) :=
      match FuelRodPtr (state r) with
      | Some p =>
          if Condition (load h p) >? 0 then
            let heatGenerated := (FissionRate (state r) / 100) * HEAT_GENERATION_RATE r in
            let r := on_state (set_Temperature
                                 (Temperature (state r) + heatGenerated * delta)) r in
            let fuelConsumed :=
              (FissionRate (state r) / 100) * FUEL_CONSUMPTION_RATE r * delta in
            (r, store h p (mkFuelRod (max 0 (Condition (load h p) - fuelConsumed))))
          else (r, h)
      | None => (r, h)
      end in
    let tempEfficiency := min 1 (Temperature (state r) / OVERHEAT_TEMP r) in
    let potentialPower :=
      Temperature (state r) * (TurbineOutput (state r) / 100) * tempEfficiency in
    let r := on_state (set_PowerOutput
                         (min (MAX_POWER_OUTPUT r)
                              (potentialPower * TURBINE_POWER_FACTOR r))) r in
    let heatConsumedByTurbine := PowerOutput (state r) / TURBINE_POWER_FACTOR r in
    let ambientCooling := Temperature (state r) * AMBIENT_TEMP_DISSIPATION r in
    let r := on_state (set_Temperature
                         (Temperature (state r)
                          - (heatConsumedByTurbine + ambientCooling) * delta)) r in
    let r := if Temperature (state r) <? 0
             then on_state (set_Temperature 0) r else r in
    mkWorld (updateStatusLocked h r) h g.

(** ** Control helpers *)

Definition PowerOn (w : World) : World :=
  if negb (IsPoweredOn (state (reactor w))) then
    on_reactor (fun r =>
      let r := on_state (set_IsPoweredOn true) r in
      on_state (set_Status (Z.ldiff (Status (state r)) StatusScram)) r) w
  else w.

Definition PowerOff (w : World) : World :=
  on_reactor (on_state (set_IsPoweredOn false)) w.

Definition Scram (w : World) : World :=
  on_reactor (fun r =>
    let r := on_state (set_Status (Z.lor (Status (state r)) StatusScram)) r in
    on_state (set_IsPoweredOn false) r) w.

Definition ToggleAuto (w : World) : World :=
  on_reactor (fun r =>
    on_state (set_IsAutoControl (negb (IsAutoControl (state r)))) r) w.

Definition SetFissionRate (v : float64) (w : World) : World :=
  if negb (IsAutoControl (state (reactor w))) then
    on_reactor (on_state (set_FissionRate (clamp v 0 100))) w
  else w.

Definition SetTurbineOutput (v : float64) (w : World) : World :=
  if negb (IsAutoControl (state (reactor w))) then
    on_reactor (on_state (set_TurbineOutput (clamp v 0 100))) w
  else w.

Definition SetPowerLoad (v : float64) (w : World) : World :=
  on_reactor (on_state (set_PowerLoad (max 0 v))) w.

(** [Snapshot] returns the struct by value: the nine fields are copied, the
    fuel rod the pointer field refers to is not. *)
Definition Snapshot (w : World) : ReactorState := state (reactor w).

Definition Refuel (w : World) : World :=
  (* replace with a fresh fuel rod at 100% condition *)
  let (p, h) := alloc (heap w) (mkFuelRod 100) in
  mkWorld (on_state (set_FuelRodPtr (Some p)) (reactor w)) h (rand w).

(** What a holder of a [ReactorState] value reads as [fuelRod.condition]
    when the heap is [h] ([None] for a [nil] pointer). *)
Definition rodCondition (h : Heap) (s : ReactorState) : option float64 :=
  match FuelRodPtr s with
  | Some p => Some (Condition (load h p))
  | None => None
  end.

(** ** Runs *)

(** The operations of the public contract, as the tick driver and the
    command endpoint invoke them. *)
Inductive Op :=
| OpPowerOn | OpPowerOff | OpScram | OpToggleAuto | OpRefuel
| OpSetFissionRate (v : float64)
| OpSetTurbineOutput (v : float64)
| OpSetPowerLoad (v : float64)
| OpAdvance (delta : float64).

Definition exec (o : Op) (w : World) : World :=
  match o with
  | OpPowerOn => PowerOn w
  | OpPowerOff => PowerOff w
  | OpScram => Scram w
  | OpToggleAuto => ToggleAuto w
  | OpRefuel => Refuel w
  | OpSetFissionRate v => SetFissionRate v w
  | OpSetTurbineOutput v => SetTurbineOutput v w
  | OpSetPowerLoad v => SetPowerLoad v w
  | OpAdvance delta => Update delta w
  end.

(** [n] consecutive ticks of the same length. *)
Fixpoint ticks (n : nat) (delta : float64) (w : World) : World :=
  match n with
  | O => w
  | S n' => ticks n' delta (Update delta w)
  end.

(** A generator that always draws one half. *)
Definition midRng : Rng := mkRng (fun _ => 0.5) 0.

(** A run of operations, first to last. *)
Fixpoint run (ops : list Op) (w : World) : World :=
  match ops with
  | [] => w
  | o :: ops' => run ops' (exec o w)
  end.

(** The invariant of the data model: a set Scram bit means the reactor is
    off. *)
Definition scram_off (w : World) : Prop :=
  hasFlag (Status (state (reactor w))) StatusScram = true ->
  IsPoweredOn (state (reactor w)) = false.

(** Sample worlds: the start, the start under manual control, the start
    after an emergency shutdown. *)
Definition startWorld : World := initWorld midRng.
Definition manualWorld : World := ToggleAuto startWorld.
Definition scrammedWorld : World := Scram startWorld.

(** How many of the heat flags a status word carries. *)
Definition heatFlagsSet (st : ReactorStatus) : nat :=
  length (filter (hasFlag st) [StatusTempLow; StatusOverheat; StatusMeltdown]).

(** What the status flags of a reactor promise about each other. *)
Definition flags_exclusive (r : Reactor) : Prop :=
  let s := state r in
  (heatFlagsSet (Status s) <= 1)%nat /\
  hasFlag (Status s) StatusOutputLow && hasFlag (Status s) StatusOutputHigh = false /\
  (hasFlag (Status s) StatusOutputHigh = true -> (PowerLoad s >? 100) = true) /\
  (hasFlag (Status s) StatusOutputLow = true -> (PowerLoad s >? 100) = true).

(** [lo <= x <= hi], as the comparisons of the code decide it; a NaN is
    between nothing. *)
Definition between (lo hi x : float64) : Prop :=
  (lo <=? x) = true /\ (x <=? hi) = true.

(** The valid states of the data model. *)
Definition valid (w : World) : Prop :=
  let s := state (reactor w) in
  between 0 100 (FissionRate s) /\
  between 0 100 (TurbineOutput s) /\
  (0 <=? Temperature s) = true /\
  between 0 (MAX_POWER_OUTPUT (reactor w)) (PowerOutput s) /\
  (0 <=? PowerLoad s) = true /\
  match rodCondition (heap w) s with
  | Some c => between 0 100 c
  | None => True
  end.

(** The test that sends [Update] into its shutdown-cooling branch. *)
Definition shutdown (w : World) : bool :=
  negb (IsPoweredOn (state (reactor w)))
  || hasFlag (Status (state (reactor w))) StatusScram.

(** The power the turbine delivers at temperature [T] and turbine output
    [tout], and the temperature left by one tick of shutdown cooling, as
    [Update] computes them. *)
Definition turbinePower (r : Reactor) (T tout : float64) : float64 :=
  min (MAX_POWER_OUTPUT r)
      (T * (tout / 100) * min 1 (T / OVERHEAT_TEMP r) * TURBINE_POWER_FACTOR r).

Definition shutdownCooled (r : Reactor) (T tout delta : float64) : float64 :=
  T - (turbinePower r T tout / TURBINE_POWER_FACTOR r
       + T * (AMBIENT_TEMP_DISSIPATION r * 2)) * delta.

(** The start with the core at 950 degrees, and the same with the turbine
    closed by hand. *)
Definition hotWorld : World :=
  on_reactor (on_state (set_Temperature 950)) startWorld.
Definition hotIdleWorld : World :=
  SetTurbineOutput 0 (ToggleAuto hotWorld).


(** What an active spike adds to the load. *)
Definition spikeContribution (r : Reactor) : float64 :=
  spikeMagnitude r * (1 - (spikeElapsed r / spikeDuration r)).

(** A running reactor under manual control, burning the rod at [p] at the
    fission rate [f]. *)
Definition burning (f : float64) (p : nat) (w : World) : Prop :=
  let s := state (reactor w) in
  configured (reactor w) /\
  shutdown w = false /\
  IsAutoControl s = false /\
  FissionRate s = f /\
  FuelRodPtr s = Some p /\
  (p < length (heap w))%nat.

(** The start under manual control with the fission rate at 100. *)
Definition fullBurnWorld : World := SetFissionRate 100 manualWorld.

(** The start under manual control with the turbine fully open. *)
Definition openTurbineWorld : World := SetTurbineOutput 100 manualWorld.


(** ** Binary64: sign classes

    What the proofs need of the arithmetic is the sign of a result and the
    order the comparisons decide; both are read off the specification of
    the operations on [spec_float]. *)

(** The sign classes of a float: a NaN and the two zeros are in both of
    [nonneg_sf] and [nonpos_sf], and in neither of [pos_sf] and [neg_sf]. *)
Definition nonneg_sf (x : spec_float) : bool :=
  match x with
  | S754_finite s _ _ | S754_infinity s => negb s
  | _ => true
  end.

Definition nonpos_sf (x : spec_float) : bool :=
  match x with
  | S754_finite s _ _ | S754_infinity s => s
  | _ => true
  end.

Definition pos_sf (x : spec_float) : bool :=
  match x with
  | S754_finite s _ _ | S754_infinity s => negb s
  | _ => false
  end.

Definition neg_sf (x : spec_float) : bool :=
  match x with
  | S754_finite s _ _ | S754_infinity s => s
  | _ => false
  end.

(** Numbers (not NaN), and finite numbers. *)
Definition is_num_sf (x : spec_float) : bool :=
  match x with S754_nan => false | _ => true end.

Definition is_finite_sf (x : spec_float) : bool :=
  match x with S754_zero _ | S754_finite _ _ _ => true | _ => false end.

(** [x] is a NaN or carries the sign [s]. *)
Definition signed_sf (s : bool) (x : spec_float) : Prop :=
  match x with
  | S754_nan => True
  | S754_zero s' | S754_infinity s' | S754_finite s' _ _ => s' = s
  end.


(** ** Runs of shutdown cooling, as an iteration on the temperature *)

(** The reactor [NewReactor] builds: the carrier of the constants. *)
Definition plant : Reactor := fst (NewReactor []).

(** The temperature and the power output one tick of shutdown cooling
    leaves, from the temperature [T] at the turbine output [tout]: lines 111
    to 120 of [Update]. *)
Definition coolTick (tout delta T : float64) : float64 * float64 :=
  let T1 := shutdownCooled plant T tout delta in
  if T1 <? 0 then (0, 0) else (T1, turbinePower plant T tout).

Definition coolStep (tout delta T : float64) : float64 := fst (coolTick tout delta T).

(** [P i x] holds of each of the [n] states [x], [step x], ... numbered from
    [i] on. *)
Fixpoint holds_along {A : Type} (P : Z -> A -> bool) (step : A -> A)
         (n : nat) (i : Z) (x : A) : bool :=
  match n with
  | O => true
  | S n' => if P i x then holds_along P step n' (i + 1)%Z (step x) else false
  end.

(** The initial turbine output, and the temperature at which shutdown
    cooling from 950 degrees comes to rest: 24 * 2^-1074. *)
Definition initialTurbine : float64 := TurbineOutput (state plant).
Definition restTemperature : float64 := 0x1.8p-1070.

(** The temperature after [k] ticks of 0.2 s of shutdown cooling from 950
    degrees. *)
Definition coolRun (tout : float64) (k : nat) : float64 :=
  Nat.iter k (coolStep tout 0.2) 950.

(** What holds of tick [i + 1] of a cooling run at the turbine output
    [tout], given the temperature [T] after tick [i]: the temperature went
    down and is positive, and the power output is positive before tick
    [dead] and 0 from it on. *)
Definition coolingCheck (tout : float64) (dead : Z) (i : Z) (T : float64) : bool :=
  let x' := coolTick tout 0.2 T in
  (fst x' <? T) && (0 <? fst x') &&
  (if (i + 1 <? dead)%Z then 0 <? snd x' else Leibniz.eqb (snd x') 0).

(** What a run of shutdown cooling keeps: the constants, the shutdown test,
    a temperature that is not negative, and the turbine output [tout] it
    started with. *)
Definition cooling (tout : float64) (w : World) : Prop :=
  configured (reactor w) /\
  shutdown w = true /\
  (Temperature (state (reactor w)) <? 0) = false /\
  TurbineOutput (state (reactor w)) = tout.

(** ** Runs of fuel burning, as an iteration on the rod's condition *)

(** What one tick of [delta] seconds at the fission rate [f] consumes, and
    the condition it leaves of a rod at condition [c]: lines 133 and 134 of
    [Update]. *)
Definition fuelConsumed (f delta : float64) : float64 :=
  f / 100 * FUEL_CONSUMPTION_RATE plant * delta.

Definition burnTick (k c : float64) : float64 := max 0 (c - k).

(** The rod at condition [c] is burnt by the tick and has fuel left after
    it. *)
Definition burningCheck (k : float64) (i : Z) (c : float64) : bool :=
  (c >? 0) && negb (burnTick k c <=? 0).

(** The start with a generator of one's choice, under manual control with
    the fission rate at 100. *)
Definition fullBurnWorldFrom (g : Rng) : World :=
  SetFissionRate 100 (ToggleAuto (initWorld g)).

(** ** Further vocabulary for the tick *)

(** The rod the reactor points to still has fuel: the test of [Update]
    before it adds heat. *)
Definition hasFuel (w : World) : bool :=
  match FuelRodPtr (state (reactor w)) with
  | Some p => Condition (load (heap w) p) >? 0
  | None => false
  end.

(** The temperature left by the turbine and the ambient losses in one tick
    of a running reactor, as [Update] computes it. *)
Definition runningCooled (r : Reactor) (T tout delta : float64) : float64 :=
  T - (turbinePower r T tout / TURBINE_POWER_FACTOR r
       + T * AMBIENT_TEMP_DISSIPATION r) * delta.

(** The pointer of the state refers to an allocated rod. *)
Definition rod_allocated (w : World) : Prop :=
  match FuelRodPtr (state (reactor w)) with
  | Some p => (p < length (heap w))%nat
  | None => True
  end.

(** [x] is not a number outside [lo, hi]: it is between them, or a NaN. *)
Definition inside (lo hi x : float64) : Prop :=
  (x <? lo) = false /\ (hi <? x) = false.

(** What every state the process reaches satisfies: the constants of
    [NewReactor]; setpoints that are not outside [0,100]; a temperature and
    a power output that are not negative, the latter not above
    MAX_POWER_OUTPUT; a fuel-rod pointer that refers to an allocated rod
    whose condition is not negative; a status word that fits the eight
    flags. *)
Definition kept (w : World) : Prop :=
  let s := state (reactor w) in
  configured (reactor w) /\
  inside 0 100 (FissionRate s) /\
  inside 0 100 (TurbineOutput s) /\
  (Temperature s <? 0) = false /\
  inside 0 (MAX_POWER_OUTPUT (reactor w)) (PowerOutput s) /\
  rod_allocated w /\
  match rodCondition (heap w) s with
  | Some c => (c <? 0) = false
  | None => True
  end /\
  (0 <= Status s < 256)%Z.

(** Ticks advance time, never rewind it. *)
Definition timed (o : Op) : Prop :=
  match o with
  | OpAdvance delta => (delta <? 0) = false
  | _ => True
  end.

(** ** The command endpoint

    [main] registers a handler for /api/action.  The request is modelled
    by its method and by what [json.NewDecoder(r.Body).Decode] yields: the
    payload, or nothing when decoding fails.  The handler answers with a
    status code; the reactor it acts on is the world. *)

Record ActionPayload := mkPayload {
  Type_ : String.string;
  Value : float64
}.

Definition StatusNoContent : Z := 204.
Definition StatusBadRequest : Z := 400.
Definition StatusMethodNotAllowed : Z := 405.

Definition handleAction (method : String.string) (body : option ActionPayload)
                        (w : World) : Z * World :=
  if negb (String.eqb method "POST"%string) then (StatusMethodNotAllowed, w)
  else
    match body with
    | None => (StatusBadRequest, w)
    | Some payload =>
        (* delegate commands to backend methods *)
        if String.eqb (Type_ payload) "powerOn"%string then (StatusNoContent, PowerOn w)
        else if String.eqb (Type_ payload) "powerOff"%string then (StatusNoContent, PowerOff w)
        else if String.eqb (Type_ payload) "scram"%string then (StatusNoContent, Scram w)
        else if String.eqb (Type_ payload) "toggleAuto"%string then (StatusNoContent, ToggleAuto w)
        else if String.eqb (Type_ payload) "refuel"%string then (StatusNoContent, Refuel w)
        else if String.eqb (Type_ payload) "setFissionRate"%string
             then (StatusNoContent, SetFissionRate (Value payload) w)
        else if String.eqb (Type_ payload) "setTurbineOutput"%string
             then (StatusNoContent, SetTurbineOutput (Value payload) w)
        else if String.eqb (Type_ payload) "setPowerLoad"%string
             then (StatusNoContent, SetPowerLoad (Value payload) w)
        else (StatusBadRequest, w)
    end.

(** The action types the handler knows. *)
Definition actionTypes : list String.string :=
  ["powerOn"%string; "powerOff"%string; "scram"%string; "toggleAuto"%string; "refuel"%string;
   "setFissionRate"%string; "setTurbineOutput"%string; "setPowerLoad"%string].

(** The operation an action type stands for. *)
Definition opOfPayload (payload : ActionPayload) : option Op :=
  if String.eqb (Type_ payload) "powerOn"%string then Some OpPowerOn
  else if String.eqb (Type_ payload) "powerOff"%string then Some OpPowerOff
  else if String.eqb (Type_ payload) "scram"%string then Some OpScram
  else if String.eqb (Type_ payload) "toggleAuto"%string then Some OpToggleAuto
  else if String.eqb (Type_ payload) "refuel"%string then Some OpRefuel
  else if String.eqb (Type_ payload) "setFissionRate"%string
       then Some (OpSetFissionRate (Value payload))
  else if String.eqb (Type_ payload) "setTurbineOutput"%string
       then Some (OpSetTurbineOutput (Value payload))
  else if String.eqb (Type_ payload) "setPowerLoad"%string
       then Some (OpSetPowerLoad (Value payload))
  else None.

(** The part of the world the physics of a tick works on: the power and
    control switches, the temperature, the two setpoints, and the fuel.
    The grid-load sub-state, the load, the generator and the derived
    fields are left out. *)
Definition physics (w : World)
  : bool * bool * bool * float64 * float64 * float64 * option nat * Heap :=
  let s := state (reactor w) in
  (IsPoweredOn s, IsAutoControl s, hasFlag (Status s) StatusScram,
   Temperature s, FissionRate s, TurbineOutput s, FuelRodPtr s, heap w).

(** ** The frontend ([frontend/ui.js])

    [updateUI] receives the state the server streams ([null] before the
    first message) and, besides painting, appends a sample to the graph
    history, which it keeps to [MAX_HISTORY] entries. *)

Record Sample := mkSample { temp : float64; load_ : float64; output : float64 }.

Definition MAX_HISTORY : nat := 200.

(** [graphHistory.push({...}); if (graphHistory.length > MAX_HISTORY)
    graphHistory.shift();] after [if (!st) return;] *)
Definition pushHistory (graphHistory : list Sample) (st : option ReactorState)
  : list Sample :=
  match st with
  | None => graphHistory
  | Some st =>
      let graphHistory :=
        graphHistory ++ [mkSample (Temperature st) (PowerLoad st) (PowerOutput st)] in
      if (MAX_HISTORY <? length graphHistory)%nat then tl graphHistory
      else graphHistory
  end.

Definition sampleOf (st : ReactorState) : Sample :=
  mkSample (Temperature st) (PowerLoad st) (PowerOutput st).

(** [hasStatus(st, flag)]: [st && (st.status & flag) !== 0] *)
Definition hasStatus (st : option ReactorState) (flag : ReactorStatus) : bool :=
  match st with
  | None => false
  | Some s => negb (Z.land (Status s) flag =? 0)%Z
  end.

(** The two "critical" lights and the meltdown shake of [updateUI]. *)
Definition isCritOutput (st : option ReactorState) : bool :=
  hasStatus st StatusOutputLow || hasStatus st StatusOutputHigh.
Definition isCritHeat (st : option ReactorState) : bool :=
  hasStatus st StatusOverheat || hasStatus st StatusMeltdown.
Definition shake (st : option ReactorState) : bool :=
  hasStatus st StatusMeltdown.
(** * Properties *)

(** ** Binary64: signs and order *)

Lemma binary_round_aux_signed (s : bool) (m e : Z) (l : location) :
  signed_sf s (binary_round_aux prec emax s m e l).
Proof.
  unfold binary_round_aux.
  destruct (shr_fexp prec emax m e l) as [mrs' e'].
  destruct (shr_fexp prec emax _ e' loc_Exact) as [mrs'' e''].
  destruct (shr_m mrs''); [reflexivity| |exact I].
  destruct (e'' <=? emax - prec)%Z; reflexivity.
Qed.

Lemma binary_round_signed (s : bool) (m : positive) (e : Z) :
  signed_sf s (binary_round prec emax s m e).
Proof.
  unfold binary_round.
  match goal with |- context [shl_align ?a ?b ?c] => destruct (shl_align a b c) end.
  apply binary_round_aux_signed.
Qed.

Lemma signed_nonneg (x : spec_float) : signed_sf false x -> nonneg_sf x = true.
Proof. destruct x; simpl; intros; subst; reflexivity. Qed.

Lemma signed_nonpos (x : spec_float) : signed_sf true x -> nonpos_sf x = true.
Proof. destruct x; simpl; intros; subst; reflexivity. Qed.

Lemma pos_nonneg_sf (x : spec_float) : pos_sf x = true -> nonneg_sf x = true.
Proof. destruct x; simpl; congruence. Qed.

Ltac sf_cases x y :=
  destruct x as [[]|[]| |[] ? ?], y as [[]|[]| |[] ? ?]; simpl;
  try reflexivity; try discriminate.

Lemma SFmul_nonneg (x y : spec_float) :
  nonneg_sf x = true -> nonneg_sf y = true -> nonneg_sf (SFmul prec emax x y) = true.
Proof.
  sf_cases x y. intros _ _. apply signed_nonneg, binary_round_aux_signed.
Qed.

Lemma SFmul_nonpos (x y : spec_float) :
  nonpos_sf x = true -> nonneg_sf y = true -> nonpos_sf (SFmul prec emax x y) = true.
Proof.
  sf_cases x y. intros _ _. apply signed_nonpos, binary_round_aux_signed.
Qed.

Lemma SFdiv_nonneg (x y : spec_float) :
  nonneg_sf x = true -> pos_sf y = true -> nonneg_sf (SFdiv prec emax x y) = true.
Proof.
  sf_cases x y. intros _ _.
  match goal with |- context [SFdiv_core_binary ?a ?b ?c ?d ?e ?f] =>
    destruct (SFdiv_core_binary a b c d e f) as [[mz ez] lz] end.
  apply signed_nonneg, binary_round_aux_signed.
Qed.

Lemma SFadd_nonneg (x y : spec_float) :
  nonneg_sf x = true -> nonneg_sf y = true -> nonneg_sf (SFadd prec emax x y) = true.
Proof.
  sf_cases x y. intros _ _.
  apply signed_nonneg, binary_round_signed.
Qed.

Lemma SFopp_pos (x : spec_float) : pos_sf x = true -> nonpos_sf (SFopp x) = true.
Proof. destruct x as [[]|[]| |[] ? ?]; simpl; congruence. Qed.

(** The order [SFcompare] decides. *)
Lemma SFcompare_antisym (x y : spec_float) (c : comparison) :
  SFcompare x y = Some c -> SFcompare y x = Some (CompOpp c).
Proof.
  destruct x as [sx|sx| |sx mx ex], y as [sy|sy| |sy my ey]; simpl;
    try discriminate;
    try (destruct sx; intros [= <-]; reflexivity);
    try (destruct sy; intros [= <-]; reflexivity);
    try (destruct sx, sy; intros [= <-]; reflexivity);
    try (intros [= <-]; reflexivity).
  intros [= <-]. f_equal.
  destruct sx, sy; try reflexivity.
  - rewrite (Z.compare_antisym ex ey).
    destruct (ex ?= ey)%Z; simpl; try reflexivity.
    rewrite (Pos.compare_cont_antisym _ _ Eq). simpl. rewrite CompOpp_involutive.
    reflexivity.
  - rewrite (Z.compare_antisym ex ey).
    destruct (ex ?= ey)%Z; simpl; try reflexivity.
    rewrite (Pos.compare_cont_antisym _ _ Eq). reflexivity.
Qed.

Lemma SFcompare_defined (x y : spec_float) :
  x <> S754_nan -> y <> S754_nan -> exists c, SFcompare x y = Some c.
Proof.
  destruct x, y; simpl; intros Hx Hy; try congruence; eexists; reflexivity.
Qed.

Lemma SFltb_pos (a d : spec_float) :
  SFltb a d = true -> nonneg_sf a = true -> pos_sf d = true.
Proof. unfold SFltb. sf_cases a d. Qed.

Lemma SFltb_neg (d b : spec_float) :
  SFltb d b = true -> nonpos_sf b = true -> neg_sf d = true.
Proof. unfold SFltb. sf_cases d b. Qed.

Lemma pos_neg_sf (x : spec_float) : pos_sf x = true -> neg_sf x = true -> False.
Proof. destruct x as [[]|[]| |[] ? ?]; simpl; congruence. Qed.

(** The same on [float64], in terms of the comparisons of the code. *)
Lemma not_neg_sf (x : float64) : (x <? 0) = false <-> nonneg_sf (Prim2SF x) = true.
Proof.
  rewrite ltb_spec. change (Prim2SF 0) with (S754_zero false).
  destruct (Prim2SF x) as [[]|[]| |[] ? ?]; cbv; split; congruence.
Qed.

Lemma is_pos_sf (x : float64) : (0 <? x) = true <-> pos_sf (Prim2SF x) = true.
Proof.
  rewrite ltb_spec. change (Prim2SF 0) with (S754_zero false).
  destruct (Prim2SF x) as [[]|[]| |[] ? ?]; cbv; split; congruence.
Qed.

Lemma mul_not_neg (x y : float64) :
  (x <? 0) = false -> (y <? 0) = false -> (x * y <? 0) = false.
Proof. rewrite !not_neg_sf, mul_spec. apply SFmul_nonneg. Qed.

Lemma add_not_neg (x y : float64) :
  (x <? 0) = false -> (y <? 0) = false -> (x + y <? 0) = false.
Proof. rewrite !not_neg_sf, add_spec. apply SFadd_nonneg. Qed.

Lemma div_not_neg (x y : float64) :
  (x <? 0) = false -> (0 <? y) = true -> (x / y <? 0) = false.
Proof. rewrite !not_neg_sf, is_pos_sf, div_spec. apply SFdiv_nonneg. Qed.

Lemma leb_ltb_false (a b : float64) : (a <=? b) = true -> (b <? a) = false.
Proof.
  rewrite leb_spec, ltb_spec. unfold SFleb, SFltb.
  destruct (SFcompare (Prim2SF a) (Prim2SF b)) as [c|] eqn:E; [|discriminate].
  rewrite (SFcompare_antisym _ _ _ E). destruct c; simpl; congruence.
Qed.

Lemma ltb_leb_false (a b : float64) : (a <? b) = true -> (b <=? a) = false.
Proof.
  rewrite leb_spec, ltb_spec. unfold SFleb, SFltb.
  destruct (SFcompare (Prim2SF a) (Prim2SF b)) as [c|] eqn:E; [|discriminate].
  rewrite (SFcompare_antisym _ _ _ E). destruct c; simpl; congruence.
Qed.

Lemma ltb_leb (a b : float64) : (a <? b) = true -> (a <=? b) = true.
Proof.
  rewrite leb_spec, ltb_spec. unfold SFleb, SFltb.
  destruct (SFcompare (Prim2SF a) (Prim2SF b)) as [[]|]; congruence.
Qed.

Lemma is_nan_sf (x : float64) : is_nan x = true <-> Prim2SF x = S754_nan.
Proof.
  unfold is_nan. rewrite negb_true_iff, eqb_spec. unfold SFeqb.
  destruct (Prim2SF x) as [[]|[]| |[] m e]; simpl;
    rewrite ?Z.compare_refl, ?Pos.compare_cont_refl; simpl; split; congruence.
Qed.

(** A float that is neither below [lo] nor above [hi] is between them or
    is a NaN. *)
Lemma not_outside (lo hi x : float64) :
  is_nan lo = false -> is_nan hi = false ->
  (x <? lo) = false -> (hi <? x) = false ->
  is_nan x = true \/ ((lo <=? x) = true /\ (x <=? hi) = true).
Proof.
  intros Hlo Hhi H1 H2.
  destruct (is_nan x) eqn:Hx; [left; reflexivity|right].
  apply not_true_iff_false in Hlo, Hhi, Hx. rewrite is_nan_sf in Hlo, Hhi, Hx.
  revert H1 H2. rewrite !ltb_spec, !leb_spec. unfold SFltb, SFleb.
  destruct (SFcompare_defined _ _ Hx Hlo) as [c1 E1].
  destruct (SFcompare_defined _ _ Hhi Hx) as [c2 E2].
  rewrite E1, E2, (SFcompare_antisym _ _ _ E1), (SFcompare_antisym _ _ _ E2).
  destruct c1, c2; simpl; intros; split; congruence.
Qed.

Lemma not_below (lo x : float64) :
  is_nan lo = false -> (x <? lo) = false ->
  is_nan x = true \/ (lo <=? x) = true.
Proof.
  intros Hlo H.
  destruct (is_nan x) eqn:Hx; [left; reflexivity|right].
  apply not_true_iff_false in Hlo, Hx. rewrite is_nan_sf in Hlo, Hx.
  revert H. rewrite !ltb_spec, !leb_spec. unfold SFltb, SFleb.
  destruct (SFcompare_defined _ _ Hx Hlo) as [c1 E1].
  rewrite E1, (SFcompare_antisym _ _ _ E1).
  destruct c1; simpl; congruence.
Qed.

Lemma leb_not_neg (x : float64) : (0 <=? x) = true -> (x <? 0) = false.
Proof. apply leb_ltb_false. Qed.

(** ** [min], [max], [clamp] *)

Lemma min_not_neg (a b : float64) :
  (a <? 0) = false -> (b <? 0) = false -> (min a b <? 0) = false.
Proof. unfold min. destruct (a <? b); auto. Qed.

Lemma min_not_above (a b : float64) :
  (a <? a) = false -> (a <? min a b) = false.
Proof. unfold min. intros H. destruct (a <? b) eqn:E; assumption. Qed.

Lemma clamp_not_outside (v lo hi : float64) :
  (lo <? lo) = false -> (hi <? lo) = false -> (hi <? hi) = false ->
  (clamp v lo hi <? lo) = false /\ (hi <? clamp v lo hi) = false.
Proof.
  unfold clamp, gtb. intros H1 H2 H3.
  destruct (v <? lo) eqn:E1; [|destruct (hi <? v) eqn:E2]; split; assumption.
Qed.

(** A float above a non-negative one is not negative. *)
Lemma above_not_neg (c v : float64) :
  (c <? 0) = false -> (v >? c) = true -> (v <? 0) = false.
Proof.
  unfold gtb. rewrite !not_neg_sf, ltb_spec. intros Hc H.
  apply pos_nonneg_sf. exact (SFltb_pos _ _ H Hc).
Qed.

(** The tests of the two output flags exclude each other: with a load above
    100 the threshold [pl * 0.2] is not negative and [(- pl) * 0.2] is not
    positive, so no difference is above the one and below the other. *)
Lemma output_flags_apart (pl d : float64) :
  (pl >? 100) = true -> (d >? pl * 0.2) = true -> (d <? (- pl) * 0.2) = true ->
  False.
Proof.
  unfold gtb. rewrite !ltb_spec, !mul_spec, opp_spec. intros Hpl Hhi Hlo.
  assert (Pp : pos_sf (Prim2SF pl) = true)
    by (apply (SFltb_pos _ _ Hpl); reflexivity).
  assert (P2 : nonneg_sf (Prim2SF 0.2) = true) by reflexivity.
  apply (pos_neg_sf (Prim2SF d)).
  - apply (SFltb_pos _ _ Hhi). apply SFmul_nonneg; [apply pos_nonneg_sf, Pp|exact P2].
  - apply (SFltb_neg _ _ Hlo). apply SFmul_nonpos; [apply SFopp_pos, Pp|exact P2].
Qed.

(** ** Binary64: results that are numbers

    Rounding a non-negative mantissa never yields a NaN, so an operation on
    numbers yields a NaN only in the cases its specification lists
    ([0 * inf], [inf - inf], [0 / 0], [inf / inf]). *)

Lemma shr_1_nonneg (mrs : shr_record) :
  (0 <= shr_m mrs)%Z -> (0 <= shr_m (shr_1 mrs))%Z.
Proof.
  destruct mrs as [m r s]; simpl. destruct m as [|[p|p|]|p]; simpl; lia.
Qed.

Lemma iter_shr_1_nonneg (p : positive) (mrs : shr_record) :
  (0 <= shr_m mrs)%Z -> (0 <= shr_m (iter_pos shr_1 p mrs))%Z.
Proof.
  revert mrs. induction p as [p IH|p IH|]; intros mrs H; simpl.
  - apply IH, IH, shr_1_nonneg, H.
  - apply IH, IH, H.
  - apply shr_1_nonneg, H.
Qed.

Lemma shr_fexp_nonneg (m e : Z) (l : location) :
  (0 <= m)%Z -> (0 <= shr_m (fst (shr_fexp prec emax m e l)))%Z.
Proof.
  intros Hm. unfold shr_fexp, shr.
  assert (H0 : (0 <= shr_m (shr_record_of_loc m l))%Z)
    by (destruct l as [|[]]; exact Hm).
  destruct (fexp prec emax (Zdigits2 m + e) - e)%Z; simpl; try exact H0.
  apply iter_shr_1_nonneg, H0.
Qed.

Lemma round_nearest_even_nonneg (m : Z) (l : location) :
  (0 <= m)%Z -> (0 <= round_nearest_even m l)%Z.
Proof.
  intros Hm. destruct l as [|[]]; simpl; try lia.
  destruct (Z.even m); lia.
Qed.

Lemma binary_round_aux_num (s : bool) (m e : Z) (l : location) :
  (0 <= m)%Z -> is_num_sf (binary_round_aux prec emax s m e l) = true.
Proof.
  intros Hm. unfold binary_round_aux.
  pose proof (shr_fexp_nonneg m e l Hm) as H1.
  destruct (shr_fexp prec emax m e l) as [mrs' e']. simpl in H1.
  pose proof (shr_fexp_nonneg _ e' loc_Exact
                (round_nearest_even_nonneg _ (loc_of_shr_record mrs') H1)) as H2.
  destruct (shr_fexp prec emax _ e' loc_Exact) as [mrs'' e'']. simpl in H2.
  destruct (shr_m mrs''); [reflexivity| |lia].
  destruct (e'' <=? emax - prec)%Z; reflexivity.
Qed.

Lemma binary_normalize_num (m e : Z) (s : bool) :
  is_num_sf (binary_normalize prec emax m e s) = true.
Proof.
  destruct m; [reflexivity| |]; unfold binary_normalize, binary_round;
    match goal with |- context [shl_align ?a ?b ?c] => destruct (shl_align a b c) end;
    apply binary_round_aux_num; lia.
Qed.

Lemma SFmul_num (x : spec_float) (s : bool) (m : positive) (e : Z) :
  is_num_sf x = true -> is_num_sf (SFmul prec emax x (S754_finite s m e)) = true.
Proof.
  destruct x; simpl; try reflexivity; try discriminate.
  intros _. apply binary_round_aux_num. lia.
Qed.

Lemma SFsub_num (s : bool) (m : positive) (e : Z) (y : spec_float) :
  is_num_sf y = true -> is_num_sf (SFsub prec emax (S754_finite s m e) y) = true.
Proof.
  destruct y; simpl; try reflexivity; try discriminate.
  intros _. apply binary_normalize_num.
Qed.

Lemma SFadd_num (x y : spec_float) :
  is_finite_sf x = true -> is_num_sf y = true ->
  is_num_sf (SFadd prec emax x y) = true.
Proof.
  destruct x, y; simpl; try reflexivity; try discriminate.
  - destruct s, s0; reflexivity.
  - intros _ _. apply binary_normalize_num.
Qed.

Lemma is_num_not_nan (x : float64) : is_num_sf (Prim2SF x) = true <-> is_nan x = false.
Proof.
  rewrite <- not_true_iff_false, is_nan_sf.
  destruct (Prim2SF x); simpl; split; congruence.
Qed.

Lemma leb_num_r (a b : float64) : (a <=? b) = true -> is_num_sf (Prim2SF b) = true.
Proof.
  rewrite leb_spec. unfold SFleb.
  destruct (Prim2SF a), (Prim2SF b); simpl; try reflexivity; discriminate.
Qed.

Lemma between_finite (lo hi x : float64) :
  is_finite_sf (Prim2SF lo) = true -> is_finite_sf (Prim2SF hi) = true ->
  between lo hi x -> is_finite_sf (Prim2SF x) = true.
Proof.
  unfold between. rewrite !leb_spec. unfold SFleb.
  destruct (Prim2SF lo) as [| | |sl ml el]; try discriminate;
    destruct (Prim2SF hi) as [| | |sh mh eh]; try discriminate;
    destruct (Prim2SF x) as [sx|[]| |sx mx ex]; simpl; intros _ _ [H1 H2];
    try reflexivity; try discriminate.
  all: try (destruct sl; discriminate).
  all: try (destruct sh; discriminate).
Qed.

(** [clamp] of a number lies in the interval. *)
Lemma clamp_between (v lo hi : float64) :
  is_nan v = false -> between lo hi lo -> between lo hi hi ->
  between lo hi (clamp v lo hi).
Proof.
  intros Hv Hlo Hhi. unfold clamp, gtb.
  destruct (v <? lo) eqn:E1; [exact Hlo|].
  destruct (hi <? v) eqn:E2; [exact Hhi|].
  assert (Nlo : is_nan lo = false)
    by (apply is_num_not_nan, (leb_num_r lo), (proj1 Hlo)).
  assert (Nhi : is_nan hi = false)
    by (apply is_num_not_nan, (leb_num_r lo), (proj2 Hlo)).
  destruct (not_outside lo hi v Nlo Nhi E1 E2) as [H|H]; [congruence|exact H].
Qed.

(** ** Binary64: the order is transitive *)

Ltac sf_order :=
  unfold SFleb, SFltb, SFcompare;
  repeat match goal with
  | |- context [(?a ?= ?b)%Z] => destruct (Z.compare_spec a b)
  end;
  repeat match goal with
  | |- context [Pos.compare_cont Eq ?a ?b] =>
      change (Pos.compare_cont Eq a b) with (Pos.compare a b);
      destruct (Pos.compare_spec a b)
  end;
  simpl; try reflexivity; try discriminate; try lia.

Lemma SFleb_trans (x y z : spec_float) :
  SFleb x y = true -> SFleb y z = true -> SFleb x z = true.
Proof.
  destruct x as [[]|[]| |[] mx ex], y as [[]|[]| |[] my ey],
           z as [[]|[]| |[] mz ez];
    try reflexivity; try discriminate; sf_order.
Qed.

Lemma SFltb_leb_trans (x y z : spec_float) :
  SFltb x y = true -> SFleb y z = true -> SFltb x z = true.
Proof.
  destruct x as [[]|[]| |[] mx ex], y as [[]|[]| |[] my ey],
           z as [[]|[]| |[] mz ez];
    try reflexivity; try discriminate; sf_order.
Qed.

Lemma SFleb_ltb_trans (x y z : spec_float) :
  SFleb x y = true -> SFltb y z = true -> SFltb x z = true.
Proof.
  destruct x as [[]|[]| |[] mx ex], y as [[]|[]| |[] my ey],
           z as [[]|[]| |[] mz ez];
    try reflexivity; try discriminate; sf_order.
Qed.

Lemma leb_trans (x y z : float64) :
  (x <=? y) = true -> (y <=? z) = true -> (x <=? z) = true.
Proof. rewrite !leb_spec. apply SFleb_trans. Qed.

Lemma ltb_leb_trans (x y z : float64) :
  (x <? y) = true -> (y <=? z) = true -> (x <? z) = true.
Proof. rewrite !ltb_spec, leb_spec. apply SFltb_leb_trans. Qed.

Lemma leb_ltb_trans (x y z : float64) :
  (x <=? y) = true -> (y <? z) = true -> (x <? z) = true.
Proof. rewrite !ltb_spec, leb_spec. apply SFleb_ltb_trans. Qed.

(** Every comparison with a NaN is false. *)
Lemma nan_ltb_l (x y : float64) : is_nan x = true -> (x <? y) = false.
Proof.
  rewrite is_nan_sf, ltb_spec. intros ->. reflexivity.
Qed.

Lemma nan_ltb_r (x y : float64) : is_nan y = true -> (x <? y) = false.
Proof.
  rewrite is_nan_sf, ltb_spec. intros ->. destruct (Prim2SF x); reflexivity.
Qed.

Lemma nan_leb_l (x y : float64) : is_nan x = true -> (x <=? y) = false.
Proof.
  rewrite is_nan_sf, leb_spec. intros ->. reflexivity.
Qed.

Lemma nan_leb_r (x y : float64) : is_nan y = true -> (x <=? y) = false.
Proof.
  rewrite is_nan_sf, leb_spec. intros ->. destruct (Prim2SF x); reflexivity.
Qed.

(** A NaN operand makes the result a NaN. *)
Lemma nan_add_l (x y : float64) : is_nan x = true -> is_nan (x + y) = true.
Proof. rewrite !is_nan_sf, add_spec. intros ->. reflexivity. Qed.

Lemma nan_add_r (x y : float64) : is_nan y = true -> is_nan (x + y) = true.
Proof. rewrite !is_nan_sf, add_spec. intros ->. destruct (Prim2SF x); reflexivity. Qed.

Lemma nan_sub_l (x y : float64) : is_nan x = true -> is_nan (x - y) = true.
Proof. rewrite !is_nan_sf, sub_spec. intros ->. reflexivity. Qed.

Lemma nan_sub_r (x y : float64) : is_nan y = true -> is_nan (x - y) = true.
Proof. rewrite !is_nan_sf, sub_spec. intros ->. destruct (Prim2SF x); reflexivity. Qed.

Lemma nan_mul_l (x y : float64) : is_nan x = true -> is_nan (x * y) = true.
Proof. rewrite !is_nan_sf, mul_spec. intros ->. reflexivity. Qed.

Lemma nan_mul_r (x y : float64) : is_nan y = true -> is_nan (x * y) = true.
Proof. rewrite !is_nan_sf, mul_spec. intros ->. destruct (Prim2SF x); reflexivity. Qed.

Lemma nan_div_l (x y : float64) : is_nan x = true -> is_nan (x / y) = true.
Proof. rewrite !is_nan_sf, div_spec. intros ->. reflexivity. Qed.

Lemma nan_div_r (x y : float64) : is_nan y = true -> is_nan (x / y) = true.
Proof. rewrite !is_nan_sf, div_spec. intros ->. destruct (Prim2SF x); reflexivity. Qed.

Lemma nan_min_r (a b : float64) : is_nan b = true -> is_nan (min a b) = true.
Proof. intros H. unfold min. rewrite (nan_ltb_r _ _ H). exact H. Qed.

(** Find the NaN operand of an arithmetic expression. *)
Ltac nan_goal :=
  match goal with
  | H : is_nan ?x = true |- is_nan ?x = true => exact H
  | |- is_nan (min _ _) = true => apply nan_min_r; nan_goal
  | |- is_nan (_ + _) = true =>
      first [apply nan_add_l; nan_goal | apply nan_add_r; nan_goal]
  | |- is_nan (_ - _) = true =>
      first [apply nan_sub_l; nan_goal | apply nan_sub_r; nan_goal]
  | |- is_nan (_ * _) = true =>
      first [apply nan_mul_l; nan_goal | apply nan_mul_r; nan_goal]
  | |- is_nan (_ / _) = true =>
      first [apply nan_div_l; nan_goal | apply nan_div_r; nan_goal]
  end.
(** ** Status bits *)

Lemma land_pow2 (s k : Z) :
  (0 <= k)%Z -> Z.land s (Z.shiftl 1 k) = if Z.testbit s k then Z.shiftl 1 k else 0%Z.
Proof.
  intros Hk. rewrite Z.shiftl_1_l.
  apply Z.bits_inj'. intros n Hn.
  rewrite Z.land_spec, Z.pow2_bits_eqb by assumption.
  destruct (Z.eqb_spec k n) as [->|Hne].
  - destruct (Z.testbit s n); [rewrite Z.pow2_bits_true by assumption|rewrite Z.bits_0];
      reflexivity.
  - rewrite andb_false_r.
    destruct (Z.testbit s k); [rewrite Z.pow2_bits_false by assumption|rewrite Z.bits_0];
      reflexivity.
Qed.

Lemma hasFlag_testbit (s k : Z) :
  (0 <= k)%Z -> hasFlag s (Z.shiftl 1 k) = Z.testbit s k.
Proof.
  intros Hk. unfold hasFlag. rewrite land_pow2 by assumption.
  destruct (Z.testbit s k); [|reflexivity].
  rewrite Z.shiftl_1_l.
  assert (0 < 2 ^ k)%Z by (apply Z.pow_pos_nonneg; lia).
  destruct (Z.eqb_spec (2 ^ k) 0); [lia|reflexivity].
Qed.

Lemma flag_is_bit (f : ReactorStatus) :
  In f flags -> exists k, (0 <= k)%Z /\ f = Z.shiftl 1 k.
Proof.
  intros H. unfold flags in H.
  repeat (destruct H as [<-|H];
          [eexists; split; [|reflexivity]; lia|]).
  destruct H.
Qed.

Lemma hasFlag_lor (a b f : ReactorStatus) :
  In f flags -> hasFlag (Z.lor a b) f = hasFlag a f || hasFlag b f.
Proof.
  intros H. destruct (flag_is_bit f H) as (k & Hk & ->).
  rewrite !hasFlag_testbit by assumption. apply Z.lor_spec.
Qed.

Lemma hasFlag_land (a b f : ReactorStatus) :
  In f flags -> hasFlag (Z.land a b) f = hasFlag a f && hasFlag b f.
Proof.
  intros H. destruct (flag_is_bit f H) as (k & Hk & ->).
  rewrite !hasFlag_testbit by assumption. apply Z.land_spec.
Qed.

Lemma hasFlag_ldiff (a b f : ReactorStatus) :
  In f flags -> hasFlag (Z.ldiff a b) f = hasFlag a f && negb (hasFlag b f).
Proof.
  intros H. destruct (flag_is_bit f H) as (k & Hk & ->).
  rewrite !hasFlag_testbit by assumption. apply Z.ldiff_spec.
Qed.

(** ** Field bookkeeping *)

(** Reduce projections of records built by the field assignments. *)
Ltac fields :=
  cbn [state MAX_TEMP MAX_POWER_OUTPUT MELTDOWN_TEMP OVERHEAT_TEMP LOW_TEMP
       OPTIMAL_TEMP FUEL_CONSUMPTION_RATE HEAT_GENERATION_RATE
       AMBIENT_TEMP_DISSIPATION TURBINE_POWER_FACTOR LOW_FUEL_THRESHOLD
       baseLoad spikeTimer isSpiking spikeElapsed spikeDuration spikeMagnitude
       IsPoweredOn IsAutoControl Temperature FissionRate TurbineOutput
       PowerOutput PowerLoad FuelRodPtr Status
       set_IsPoweredOn set_IsAutoControl set_Temperature set_FissionRate
       set_TurbineOutput set_PowerOutput set_PowerLoad set_FuelRodPtr
       set_Status set_state set_baseLoad set_spikeTimer set_isSpiking
       set_spikeElapsed on_state on_reactor reactor heap rand fst snd
       draws cursor Float64 Snapshot negb] in *.

(** Flags of literal status words. *)
Ltac is_status_lit a :=
  lazymatch a with
  | 0%Z => idtac
  | StatusNone => idtac
  | StatusTempLow => idtac
  | StatusOverheat => idtac
  | StatusOutputLow => idtac
  | StatusOutputHigh => idtac
  | StatusFuelLow => idtac
  | StatusFuelOut => idtac
  | StatusMeltdown => idtac
  | StatusScram => idtac
  end.

Ltac flag_consts :=
  repeat match goal with
  | |- context [hasFlag ?a ?b] =>
      is_status_lit a; is_status_lit b;
      let v := eval vm_compute in (hasFlag a b) in
      change (hasFlag a b) with v
  end.

Ltac in_flags := unfold flags; simpl; tauto.

Lemma if_lor (c : bool) (x f : Z) :
  (if c then Z.lor x f else x) = Z.lor x (if c then f else 0%Z).
Proof. destruct c; [reflexivity|rewrite Z.lor_0_r; reflexivity]. Qed.

(** The flags and the fuel-rod pointer after a status recomputation, each
    as the test the code makes for it. *)
Lemma updateStatusLocked_flags (h : Heap) (r : Reactor) :
  let s := state r in
  let s' := state (updateStatusLocked h r) in
  let melt := Temperature s >=? MELTDOWN_TEMP r in
  let over := Temperature s >=? OVERHEAT_TEMP r in
  let low := (Temperature s <? LOW_TEMP r) && IsPoweredOn s && (PowerOutput s >? 0) in
  let diff := PowerOutput s - PowerLoad s in
  let out :=
    match FuelRodPtr s with
    | None => true
    | Some p => Condition (load h p) <=? 0
    end in
  let lowfuel :=
    match FuelRodPtr s with
    | None => false
    | Some p => Condition (load h p) <? LOW_FUEL_THRESHOLD r
    end in
  hasFlag (Status s') StatusScram = hasFlag (Status s) StatusScram /\
  hasFlag (Status s') StatusMeltdown = melt /\
  hasFlag (Status s') StatusOverheat = negb melt && over /\
  hasFlag (Status s') StatusTempLow = negb melt && negb over && low /\
  hasFlag (Status s') StatusOutputHigh =
    (diff >? PowerLoad s * 0.2) && (PowerLoad s >? 100) /\
  hasFlag (Status s') StatusOutputLow =
    (diff <? (- PowerLoad s) * 0.2) && (PowerLoad s >? 100) /\
  hasFlag (Status s') StatusFuelOut = out /\
  hasFlag (Status s') StatusFuelLow = negb out && lowfuel /\
  FuelRodPtr s' = (if out then None else FuelRodPtr s).
Proof.
  destruct r as [s]; destruct s as [on auto T fr tout po pl rod st].
  unfold updateStatusLocked; fields.
  generalize (T >=? MELTDOWN_TEMP0) (T >=? OVERHEAT_TEMP0)
             ((T <? LOW_TEMP0) && on && (po >? 0))
             ((po - pl >? pl * 0.2) && (pl >? 100))
             ((po - pl <? - pl * 0.2) && (pl >? 100)).
  intros melt over low hi lo.
  assert (Hheat :
    (if melt then Z.lor (Z.land st StatusScram) StatusMeltdown
     else if over then Z.lor (Z.land st StatusScram) StatusOverheat
     else if low then Z.lor (Z.land st StatusScram) StatusTempLow
     else Z.land st StatusScram) =
    Z.lor (Z.land st StatusScram)
      (if melt then StatusMeltdown else if over then StatusOverheat
       else if low then StatusTempLow else 0%Z)).
  { destruct melt, over, low; rewrite ?Z.lor_0_r; reflexivity. }
  rewrite Hheat; clear Hheat.
  rewrite !if_lor.
  destruct rod as [p|];
    [generalize (Condition (load h p) <=? 0)
                (Condition (load h p) <? LOW_FUEL_THRESHOLD0);
     intros out lowfuel; destruct out; [|destruct lowfuel]|];
    fields; rewrite ?hasFlag_lor, ?hasFlag_land by in_flags;
    destruct melt, over, low, hi, lo; flag_consts;
    rewrite ?andb_false_r, ?andb_true_r, ?orb_false_r, ?orb_true_r;
    repeat split; reflexivity.
Qed.

(** A status recomputation assigns [Status] and [FuelRod] only. *)
Lemma updateStatusLocked_shape (h : Heap) (r : Reactor) :
  exists st rod,
    updateStatusLocked h r = on_state (set_Status st) (on_state (set_FuelRodPtr rod) r).
Proof.
  unfold updateStatusLocked.
  match goal with |- context [let '(_, _) := ?x in _] => destruct x as [st rod] end.
  exists st, rod. reflexivity.
Qed.

(** ** The grid load *)

(** [updateGridLoad] assigns [PowerLoad] and the grid-load sub-state only. *)
Lemma updateGridLoad_shape (delta : float64) (r : Reactor) (g : Rng) :
  exists bl tm sp el pl g',
    updateGridLoad delta r g =
    (on_state (set_PowerLoad pl)
       (set_spikeTimer tm (set_spikeElapsed el (set_isSpiking sp (set_baseLoad bl r)))),
     g').
Proof.
  pose (r' := fst (updateGridLoad delta r g)).
  exists (baseLoad r'), (spikeTimer r'), (isSpiking r'), (spikeElapsed r'),
         (PowerLoad (state r')), (snd (updateGridLoad delta r g)).
  subst r'.
  destruct r as [s]; destruct s as [on auto T fr tout po pl rod st].
  unfold updateGridLoad; fields.
  destruct isSpiking0; fields.
  - destruct (spikeElapsed0 + delta >=? spikeDuration0); reflexivity.
  - destruct (spikeTimer0 - delta <=? 0); reflexivity.
Qed.

(** The value stored in [PowerLoad] is not read by [updateGridLoad]. *)
Lemma updateGridLoad_PowerLoad_blind (delta v : float64) (r : Reactor) (g : Rng) :
  updateGridLoad delta (on_state (set_PowerLoad v) r) g = updateGridLoad delta r g.
Proof.
  destruct r as [s]; destruct s as [on auto T fr tout po pl rod st].
  unfold updateGridLoad; fields.
  destruct isSpiking0; fields.
  - destruct (spikeElapsed0 + delta >=? spikeDuration0); reflexivity.
  - destruct (spikeTimer0 - delta <=? 0); reflexivity.
Qed.

(** ** The tick *)

(** Symbolic execution of one [Update]: name what the grid-load step and the
    status recomputation assign, and split on the branches taken. *)
Ltac split_if :=
  match goal with
  | |- context [if ?c then _ else _] => destruct c eqn:?
  | |- context [match ?c with Some _ => _ | None => _ end] => destruct c eqn:?
  end; fields.

Ltac name_status :=
  match goal with
  | |- context [updateStatusLocked ?h ?r] =>
      let F := fresh "Flags" in
      let st := fresh "st" in
      let rod := fresh "rod" in
      let E := fresh "E" in
      pose proof (updateStatusLocked_flags h r) as F;
      destruct (updateStatusLocked_shape h r) as (st & rod & E);
      rewrite E in *; clear E; fields
  end.

Ltac name_grid :=
  match goal with
  | |- context [updateGridLoad ?d ?r ?g] =>
      let E := fresh "E" in
      destruct (updateGridLoad_shape d r g) as (? & ? & ? & ? & ? & ? & E);
      rewrite E; clear E; fields
  end.

Ltac forget_status :=
  match goal with
  | |- context [updateStatusLocked ?h ?r] =>
      let st := fresh "st" in
      let rod := fresh "rod" in
      let E := fresh "E" in
      destruct (updateStatusLocked_shape h r) as (st & rod & E);
      rewrite E in *; clear E; fields
  end.

Ltac run_Update :=
  unfold Update; fields; name_grid; repeat split_if; name_status.

(** The same, for goals that do not look at the flags. *)
Ltac run_Update_fields :=
  unfold Update; fields; name_grid; repeat split_if; forget_status.

Ltac open_world w :=
  let r := fresh "r" in
  let s := fresh "s" in
  destruct w as [r ? ?]; destruct r as [s]; destruct s; fields.

Ltac open_command w :=
  open_world w;
  unfold PowerOn, PowerOff, Scram, ToggleAuto, Refuel, SetFissionRate,
         SetTurbineOutput, SetPowerLoad, alloc;
  fields.

Lemma Update_keeps (delta : float64) (w : World) :
  let s := state (reactor w) in
  let s' := state (reactor (Update delta w)) in
  IsPoweredOn s' = IsPoweredOn s /\
  IsAutoControl s' = IsAutoControl s /\
  hasFlag (Status s') StatusScram = hasFlag (Status s) StatusScram /\
  (configured (reactor w) -> configured (reactor (Update delta w))).
Proof.
  unfold configured. open_world w. run_Update.
  all: destruct Flags as (-> & _).
  all: unfold runAutoControlLocked; fields; repeat split; tauto.
Qed.

(** ** Commands *)

(** C8. [PowerOn] on a powered reactor changes nothing (the Scram bit
    included); on an unpowered one it sets [IsPoweredOn], clears the Scram
    bit, and leaves every other status bit, every other field of the state,
    the rest of the reactor, the heap and the generator as they were. *)
Theorem PowerOn_spec (w : World) :
  let s := state (reactor w) in
  let w' := PowerOn w in
  let s' := state (reactor w') in
  (IsPoweredOn s = true -> w' = w) /\
  (IsPoweredOn s = false ->
     IsPoweredOn s' = true /\
     hasFlag (Status s') StatusScram = false /\
     (forall i, i <> 7%Z -> Z.testbit (Status s') i = Z.testbit (Status s) i) /\
     set_Status (Status s) (set_IsPoweredOn false s') = s /\
     set_state s (reactor w') = reactor w /\
     heap w' = heap w /\ rand w' = rand w).
Proof.
  open_world w. unfold PowerOn; fields. split; intros ->; fields.
  - reflexivity.
  - repeat split.
    + rewrite hasFlag_ldiff by in_flags. flag_consts. apply andb_false_r.
    + intros i Hi. rewrite Z.ldiff_spec.
      unfold StatusScram. rewrite Z.shiftl_1_l, Z.pow2_bits_eqb by lia.
      destruct (Z.eqb_spec 7 i); [lia|]. apply andb_true_r.
Qed.

Lemma PowerOn_spec_witness :
  PowerOn startWorld = startWorld /\
  IsPoweredOn (state (reactor (PowerOn scrammedWorld))) = true /\
  hasFlag (Status (state (reactor (PowerOn scrammedWorld)))) StatusScram = false.
Proof.
  split.
  - apply (proj1 (PowerOn_spec startWorld)). reflexivity.
  - assert (H : IsPoweredOn (state (reactor scrammedWorld)) = false) by reflexivity.
    destruct (proj2 (PowerOn_spec scrammedWorld) H) as (H1 & H2 & _).
    split; assumption.
Defined.

(** C5. Under auto-control the two setpoint commands change nothing; under
    manual control each stores its argument clamped to [0,100] in its own
    field and changes nothing else. *)
Theorem setpoints_spec (v : float64) (w : World) :
  let s := state (reactor w) in
  (IsAutoControl s = true ->
     SetFissionRate v w = w /\ SetTurbineOutput v w = w) /\
  (IsAutoControl s = false ->
     (let w' := SetFissionRate v w in
      let s' := state (reactor w') in
      FissionRate s' = clamp v 0 100 /\
      set_FissionRate (FissionRate s) s' = s /\
      set_state s (reactor w') = reactor w /\
      heap w' = heap w /\ rand w' = rand w) /\
     (let w' := SetTurbineOutput v w in
      let s' := state (reactor w') in
      TurbineOutput s' = clamp v 0 100 /\
      set_TurbineOutput (TurbineOutput s) s' = s /\
      set_state s (reactor w') = reactor w /\
      heap w' = heap w /\ rand w' = rand w)) /\
  ((v <? 0) = true -> clamp v 0 100 = 0) /\
  ((v >? 100) = true -> clamp v 0 100 = 100) /\
  (between 0 100 v -> clamp v 0 100 = v).
Proof.
  open_world w. unfold SetFissionRate, SetTurbineOutput; fields.
  split; [|split; [|split; [|split]]].
  - intros ->; fields. split; reflexivity.
  - intros ->; fields. repeat split.
  - intros H. unfold clamp. rewrite H. reflexivity.
  - intros H. unfold clamp. rewrite (above_not_neg 100 v), H by (reflexivity || exact H).
    reflexivity.
  - intros [H0 H1]. unfold clamp, gtb.
    rewrite (leb_ltb_false _ _ H0), (leb_ltb_false _ _ H1). reflexivity.
Qed.

Lemma setpoints_spec_witness :
  (SetFissionRate 150 startWorld = startWorld /\
   SetTurbineOutput 150 startWorld = startWorld) /\
  FissionRate (state (reactor (SetFissionRate 150 manualWorld))) = 100 /\
  TurbineOutput (state (reactor (SetTurbineOutput (-3) manualWorld))) = 0 /\
  clamp 42 0 100 = 42.
Proof.
  split; [|split; [|split]].
  - apply (proj1 (setpoints_spec 150 startWorld)). reflexivity.
  - assert (H : IsAutoControl (state (reactor manualWorld)) = false) by reflexivity.
    destruct (proj1 (proj2 (setpoints_spec 150 manualWorld)) H) as [(E & _) _].
    rewrite E.
    apply (proj1 (proj2 (proj2 (proj2 (setpoints_spec 150 manualWorld))))).
    reflexivity.
  - assert (H : IsAutoControl (state (reactor manualWorld)) = false) by reflexivity.
    destruct (proj1 (proj2 (setpoints_spec (-3) manualWorld)) H) as [_ (E & _)].
    rewrite E.
    apply (proj1 (proj2 (proj2 (setpoints_spec (-3) manualWorld)))).
    reflexivity.
  - apply (proj2 (proj2 (proj2 (proj2 (setpoints_spec 42 startWorld))))).
    split; reflexivity.
Defined.

(** C10. The stored [PowerLoad] does not influence a tick: two worlds that
    differ in [PowerLoad] only (one is the other with any value [v] stored
    there, by [SetPowerLoad] or otherwise) are taken by [Update], on the same
    draws, to the same world.  The load a tick leaves is the one
    [updateGridLoad] computes from the grid-load sub-state, and the value a
    [SetPowerLoad] installs is what a snapshot shows until then. *)
Theorem Update_PowerLoad_blind (delta v : float64) (w : World) :
  Update delta (on_reactor (on_state (set_PowerLoad v)) w) = Update delta w /\
  Update delta (SetPowerLoad v w) = Update delta w /\
  PowerLoad (Snapshot (Update delta w)) =
    PowerLoad (state (fst (updateGridLoad delta (reactor w) (rand w)))) /\
  PowerLoad (Snapshot (SetPowerLoad v w)) = max 0 v.
Proof.
  assert (B : forall x, Update delta (on_reactor (on_state (set_PowerLoad x)) w)
                        = Update delta w).
  { intros x. destruct w as [r h g]. unfold Update; fields.
    rewrite updateGridLoad_PowerLoad_blind. reflexivity. }
  split; [apply B|]. split; [apply B|]. split.
  - open_world w. run_Update; unfold runAutoControlLocked; fields; reflexivity.
  - open_world w. reflexivity.
Qed.

(** ** The Scram invariant *)

Lemma exec_scram_off (o : Op) (w : World) : scram_off w -> scram_off (exec o w).
Proof.
  unfold scram_off. destruct o; simpl exec.
  - (* PowerOn *)
    open_world w. unfold PowerOn; fields.
    destruct IsPoweredOn0; fields; intros H.
    + exact H.
    + rewrite hasFlag_ldiff by in_flags. flag_consts.
      rewrite andb_false_r. discriminate.
  - open_world w. reflexivity.
  - open_world w. reflexivity.
  - open_world w. intros H. exact H.
  - open_world w. unfold Refuel; fields. intros H. exact H.
  - open_world w. unfold SetFissionRate; fields.
    destruct IsAutoControl0; fields; intros H; exact H.
  - open_world w. unfold SetTurbineOutput; fields.
    destruct IsAutoControl0; fields; intros H; exact H.
  - open_world w. intros H. exact H.
  - destruct (Update_keeps delta w) as (-> & _ & -> & _). intros H; exact H.
Qed.

Lemma initWorld_scram_off (g : Rng) : scram_off (initWorld g).
Proof. intros H. discriminate H. Qed.

Lemma run_scram_off (ops : list Op) (w : World) :
  scram_off w -> scram_off (run ops w).
Proof.
  revert w. induction ops as [|o ops IH]; intros w H; simpl.
  - exact H.
  - apply IH, exec_scram_off, H.
Qed.

(** C3. A set Scram bit implies the reactor is off: in the initial state,
    after every operation from a state where it holds, and so in every
    state a run of operations reaches.  [Scram] sets the bit and switches
    the reactor off; an operation that clears a set Scram bit is a power-on,
    and it leaves the reactor on. *)
Theorem scram_invariant :
  (forall g, scram_off (initWorld g)) /\
  (forall o w, scram_off w -> scram_off (exec o w)) /\
  (forall g ops, scram_off (run ops (initWorld g))) /\
  (forall w, hasFlag (Status (state (reactor (Scram w)))) StatusScram = true /\
             IsPoweredOn (state (reactor (Scram w))) = false) /\
  (forall o w,
     hasFlag (Status (state (reactor w))) StatusScram = true ->
     hasFlag (Status (state (reactor (exec o w)))) StatusScram = false ->
     o = OpPowerOn /\ IsPoweredOn (state (reactor (exec o w))) = true).
Proof.
  split; [exact initWorld_scram_off|].
  split; [exact exec_scram_off|].
  split; [intros g ops; apply run_scram_off, initWorld_scram_off|].
  split.
  - intros w. open_command w. split; [|reflexivity].
    rewrite hasFlag_lor by in_flags. flag_consts. apply orb_true_r.
  - intros o w Hset Hclr. destruct o; simpl exec in *.
    + split; [reflexivity|]. revert Hset Hclr. open_command w.
      destruct IsPoweredOn0; fields; intros Hset Hclr.
      * congruence.
      * reflexivity.
    + exfalso. revert Hset Hclr. open_command w. congruence.
    + exfalso. revert Hset Hclr. open_command w.
      rewrite hasFlag_lor by in_flags. flag_consts. rewrite orb_true_r.
      discriminate.
    + exfalso. revert Hset Hclr. open_command w. congruence.
    + exfalso. revert Hset Hclr. open_command w. congruence.
    + exfalso. revert Hset Hclr. open_command w.
      destruct IsAutoControl0; fields; congruence.
    + exfalso. revert Hset Hclr. open_command w.
      destruct IsAutoControl0; fields; congruence.
    + exfalso. revert Hset Hclr. open_command w. congruence.
    + exfalso. destruct (Update_keeps delta w) as (_ & _ & E & _). congruence.
Qed.

Lemma scram_invariant_witness :
  scram_off (exec (OpAdvance 0.2) scrammedWorld) /\
  (OpPowerOn = OpPowerOn /\
   IsPoweredOn (state (reactor (exec OpPowerOn scrammedWorld))) = true).
Proof.
  split.
  - apply (proj1 (proj2 scram_invariant)). intros _. reflexivity.
  - apply (proj2 (proj2 (proj2 (proj2 scram_invariant)))); reflexivity.
Defined.

(** ** Status flags *)

(** Every tick ends with a status recomputation. *)
Lemma Update_ends_with_status (delta : float64) (w : World) :
  exists h r, reactor (Update delta w) = updateStatusLocked h r.
Proof.
  unfold Update.
  destruct (updateGridLoad delta (reactor w) (rand w)) as [r1 g1].
  match goal with |- context [if ?c then _ else _] => destruct c end.
  - do 2 eexists. reflexivity.
  - match goal with |- context [let '(_, _) := ?x in _] => destruct x as [r2 h2] end.
    do 2 eexists. reflexivity.
Qed.

Lemma updateStatusLocked_exclusive (h : Heap) (r : Reactor) :
  flags_exclusive (updateStatusLocked h r).
Proof.
  pose proof (updateStatusLocked_flags h r) as F.
  destruct (updateStatusLocked_shape h r) as (st' & rod' & E).
  unfold flags_exclusive. rewrite E in *. clear E.
  destruct r as [s]; destruct s as [on auto T fr tout po pl rod st]. fields.
  destruct F as (_ & Fm & Fo & Ft & Fh & Fl & _).
  unfold heatFlagsSet, filter. rewrite Fm, Fo, Ft, Fh, Fl.
  split; [|split; [|split]].
  - destruct (T >=? MELTDOWN_TEMP0), (T >=? OVERHEAT_TEMP0),
             ((T <? LOW_TEMP0) && on && (po >? 0)); simpl; lia.
  - destruct (po - pl <? - pl * 0.2) eqn:E1; [|reflexivity].
    destruct (po - pl >? pl * 0.2) eqn:E2; [|rewrite andb_false_r; reflexivity].
    destruct (pl >? 100) eqn:E3; [|reflexivity].
    exfalso. exact (output_flags_apart pl (po - pl) E3 E2 E1).
  - intros H. apply andb_true_iff in H as [_ H]. exact H.
  - intros H. apply andb_true_iff in H as [_ H]. exact H.
Qed.

(** C6. After every status recomputation, and so after every tick, at most
    one of TempLow, Overheat, Meltdown is set, OutputLow and OutputHigh are
    not both set, and either output flag is set only with a load above 100. *)
Theorem status_flags_exclusive :
  (forall h r, flags_exclusive (updateStatusLocked h r)) /\
  (forall delta w, flags_exclusive (reactor (Update delta w))).
Proof.
  split.
  - exact updateStatusLocked_exclusive.
  - intros delta w. destruct (Update_ends_with_status delta w) as (h & r & ->).
    apply updateStatusLocked_exclusive.
Qed.

Lemma status_flags_exclusive_witness :
  hasFlag (Status (state (reactor (Update 0.2 openTurbineWorld)))) StatusOutputHigh
    = true /\
  (PowerLoad (state (reactor (Update 0.2 openTurbineWorld))) >? 100) = true.
Proof.
  assert (H : hasFlag (Status (state (reactor (Update 0.2 openTurbineWorld))))
                      StatusOutputHigh = true) by (vm_compute; reflexivity).
  split; [exact H|].
  exact (proj1 (proj2 (proj2 (proj2 status_flags_exclusive 0.2 openTurbineWorld))) H).
Defined.
(** ** Bounds kept by a tick *)

(** Signs of the quantities a tick computes. *)
Ltac sign_goal :=
  match goal with
  | H : ?g |- ?g => exact H
  | |- _ => reflexivity
  | |- (clamp _ 0 100 <? 0) = false => apply clamp_not_outside; reflexivity
  | |- (100 <? clamp _ 0 100) = false => apply clamp_not_outside; reflexivity
  | |- (5000 <? min 5000 _) = false => apply min_not_above; reflexivity
  | |- (min _ _ <? 0) = false => apply min_not_neg; sign_goal
  | |- (_ * _ <? 0) = false => apply mul_not_neg; sign_goal
  | |- (_ + _ <? 0) = false => apply add_not_neg; sign_goal
  | |- (_ / _ <? 0) = false => apply div_not_neg; sign_goal
  | H : (?a <=? ?b) = true |- (?b <? ?a) = false => exact (leb_ltb_false a b H)
  end.

(** No field leaves its range: from a state in which the setpoints are not
    outside [0,100] and the temperature is not negative, none is below its
    lower bound or above its upper bound after a tick. *)
Lemma Update_not_outside (delta : float64) (w : World) :
  (delta <? 0) = false -> configured (reactor w) ->
  let s := state (reactor w) in
  let s' := state (reactor (Update delta w)) in
  (FissionRate s <? 0) = false -> (100 <? FissionRate s) = false ->
  (TurbineOutput s <? 0) = false -> (100 <? TurbineOutput s) = false ->
  (Temperature s <? 0) = false ->
  ((FissionRate s' <? 0) = false /\ (100 <? FissionRate s') = false) /\
  ((TurbineOutput s' <? 0) = false /\ (100 <? TurbineOutput s') = false) /\
  (Temperature s' <? 0) = false /\
  ((PowerOutput s' <? 0) = false /\
   (MAX_POWER_OUTPUT (reactor (Update delta w)) <? PowerOutput s') = false).
Proof.
  intros Hd Hc. revert Hc. unfold configured.
  open_world w.
  intros (-> & -> & -> & -> & -> & -> & -> & -> & -> & -> & -> & -> & ->).
  intros Hfr0 Hfr1 Hto0 Hto1 HT.
  run_Update_fields.
  all: unfold runAutoControlLocked; fields.
  all: repeat split; sign_goal.
Qed.

(** The fission rate a tick leaves is a number: the controller's correction
    [(OPTIMAL_TEMP - T) * 0.002] is one whenever the temperature is, and it
    is added to a finite rate. *)
Lemma controller_rate_num (fr T : float64) :
  between 0 100 fr -> (0 <=? T) = true ->
  is_nan (fr + (350 - T) * 0.002) = false.
Proof.
  intros Hfr HT. apply is_num_not_nan.
  rewrite add_spec, mul_spec, sub_spec.
  apply SFadd_num; [apply (between_finite 0 100); [reflexivity|reflexivity|exact Hfr]|].
  let v := eval vm_compute in (Prim2SF 0.002) in change (Prim2SF 0.002) with v.
  apply SFmul_num.
  let v := eval vm_compute in (Prim2SF 350) in change (Prim2SF 350) with v.
  apply SFsub_num. exact (leb_num_r _ _ HT).
Qed.

Lemma Update_FissionRate_between (delta : float64) (w : World) :
  configured (reactor w) -> valid w ->
  between 0 100 (FissionRate (state (reactor (Update delta w)))).
Proof.
  intros Hc Hv. revert Hc Hv. unfold configured, valid, rodCondition.
  open_world w.
  intros (-> & -> & -> & -> & -> & -> & -> & -> & -> & -> & -> & -> & ->).
  intros (Hfr & Hto & HT & Hpo & Hpl & Hrod).
  run_Update_fields.
  all: unfold runAutoControlLocked; fields.
  all: try exact Hfr.
  all: try (split; reflexivity).
  all: apply clamp_between;
    [apply controller_rate_num; assumption|split; reflexivity|split; reflexivity].
Qed.



(** ** The grid-load generator *)

(** A tick leaves the grid-load sub-state, the load and the generator as its
    call of [updateGridLoad] leaves them. *)
Lemma Update_grid (delta : float64) (w : World) :
  let w' := Update delta w in
  let rg := updateGridLoad delta (reactor w) (rand w) in
  baseLoad (reactor w') = baseLoad (fst rg) /\
  spikeTimer (reactor w') = spikeTimer (fst rg) /\
  isSpiking (reactor w') = isSpiking (fst rg) /\
  spikeElapsed (reactor w') = spikeElapsed (fst rg) /\
  spikeDuration (reactor w') = spikeDuration (reactor w) /\
  spikeMagnitude (reactor w') = spikeMagnitude (reactor w) /\
  PowerLoad (state (reactor w')) = PowerLoad (state (fst rg)) /\
  rand w' = snd rg.
Proof.
  open_world w. run_Update_fields; unfold runAutoControlLocked; fields;
    repeat split; reflexivity.
Qed.

(** [Round] on a finite float [m * 2^e]: an integer already when [e >= 0];
    otherwise the integer [n] nearest to [m / 2^(-e)], the upper one of two
    that are equally near, under the sign of the argument. *)
Lemma Round_finite (x : float64) (s : bool) (m : positive) (e : Z) :
  Prim2SF x = S754_finite s m e ->
  ((0 <= e)%Z -> Round x = x) /\
  ((e < 0)%Z ->
     exists n : Z,
       Round x = ofInt s n /\
       (2 * n * 2 ^ (- e) - 2 ^ (- e) <= 2 * Zpos m < 2 * n * 2 ^ (- e) + 2 ^ (- e))%Z).
Proof.
  intros E. unfold Round. rewrite E. split; intros He.
  - destruct (Z.leb_spec 0 e); [reflexivity|lia].
  - destruct (Z.leb_spec 0 e); [lia|].
    exists ((Zpos m + 2 ^ (- e - 1)) / 2 ^ (- e))%Z. split; [reflexivity|].
    assert (ED : (2 ^ (- e) = 2 * 2 ^ (- e - 1))%Z).
    { replace (- e)%Z with (Z.succ (- e - 1)) at 1 by lia.
      apply Z.pow_succ_r. lia. }
    assert (Hh : (0 < 2 ^ (- e - 1))%Z) by (apply Z.pow_pos_nonneg; lia).
    set (h := (2 ^ (- e - 1))%Z) in *. rewrite ED.
    pose proof (Z.div_mod (Zpos m + h) (2 * h) ltac:(lia)) as Hdm.
    pose proof (Z.mod_pos_bound (Zpos m + h) (2 * h) ltac:(lia)) as Hmod.
    set (n := ((Zpos m + h) / (2 * h))%Z) in *.
    nia.
Qed.

Lemma Round_not_finite (x : float64) :
  is_finite_sf (Prim2SF x) = false \/ (exists s, Prim2SF x = S754_zero s) ->
  Round x = x.
Proof.
  unfold Round. intros [H|[s H]].
  - destruct (Prim2SF x); try reflexivity; discriminate.
  - rewrite H. reflexivity.
Qed.


(** ** Snapshots and the fuel rod *)

Lemma load_store (h : Heap) (p : nat) (v : FuelRod) :
  (p < length h)%nat -> load (store h p v) p = v.
Proof.
  unfold load. revert p. induction h as [|x h IH]; intros p Hp; simpl in *.
  - lia.
  - destruct p as [|p]; simpl; [reflexivity|]. apply IH. lia.
Qed.

Lemma length_store (h : Heap) (p : nat) (v : FuelRod) :
  length (store h p v) = length h.
Proof.
  revert p. induction h as [|x h IH]; intros p; simpl; [reflexivity|].
  destruct p; simpl; [reflexivity|]. rewrite IH. reflexivity.
Qed.

Lemma load_alloc_new (h : Heap) (v : FuelRod) :
  load (snd (alloc h v)) (fst (alloc h v)) = v.
Proof.
  unfold load, alloc; simpl. rewrite app_nth2 by lia.
  rewrite Nat.sub_diag. reflexivity.
Qed.

(** C2, the part that holds: a snapshot equals the state it was taken of,
    and no command other than a tick changes what is read through it. *)
Lemma Snapshot_stable_under_commands (o : Op) (w : World) :
  (forall delta, o <> OpAdvance delta) ->
  (forall p, FuelRodPtr (Snapshot w) = Some p -> (p < length (heap w))%nat) ->
  Snapshot w = state (reactor w) /\
  rodCondition (heap (exec o w)) (Snapshot w) = rodCondition (heap w) (Snapshot w).
Proof.
  intros Hno Hp. split; [reflexivity|].
  destruct o; simpl exec; try (exfalso; eapply Hno; reflexivity).
  1-4,6-8: revert Hp; open_command w; intros Hp;
           repeat match goal with |- context [if ?c then _ else _] => destruct c end;
           reflexivity.
  revert Hp. unfold rodCondition. open_command w. intros Hp.
  destruct FuelRodPtr0 as [p|]; [|reflexivity].
  f_equal. f_equal. unfold load. apply app_nth1. apply Hp. reflexivity.
Qed.

(** C2, where the code departs from the claim: [Snapshot] copies the pointer
    to the fuel rod, not the rod, so the next tick's fuel consumption shows
    through a snapshot taken before it. *)
Theorem Snapshot_shares_fuel_rod :
  let snap := Snapshot startWorld in
  snap = state (reactor startWorld) /\
  rodCondition (heap startWorld) snap = Some 100 /\
  match rodCondition (heap (Update 0.2 startWorld)) snap with
  | Some c => c = 99.998218750000007 /\ (c <? 100) = true
  | None => False
  end.
Proof.
  split; [reflexivity|]. split; [reflexivity|].
  vm_compute. split; reflexivity.
Qed.
(** ** Shutdown cooling *)

Lemma Update_shutdown (delta : float64) (w : World) :
  shutdown w = true ->
  let r := reactor w in
  let s := state r in
  let s' := state (reactor (Update delta w)) in
  let po1 := turbinePower r (Temperature s) (TurbineOutput s) in
  let T1 := shutdownCooled r (Temperature s) (TurbineOutput s) delta in
  FissionRate s' = 0 /\
  TurbineOutput s' = TurbineOutput s /\
  Temperature s' = (if T1 <? 0 then 0 else T1) /\
  PowerOutput s' = (if T1 <? 0 then 0 else po1) /\
  heap (Update delta w) = heap w.
Proof.
  unfold shutdown, shutdownCooled, turbinePower. open_world w. intros Hs.
  unfold Update; fields; name_grid. rewrite Hs.
  split_if; forget_status; repeat split; reflexivity.
Qed.

Lemma ticks_S (n : nat) (delta : float64) (w : World) :
  ticks (S n) delta w = Update delta (ticks n delta w).
Proof.
  revert w. induction n as [|n IH]; intros w; [reflexivity|].
  change (ticks (S (S n)) delta w) with (ticks (S n) delta (Update delta w)).
  rewrite IH. reflexivity.
Qed.

Lemma holds_along_spec {A : Type} (P : Z -> A -> bool) (step : A -> A)
      (n : nat) (i : Z) (x : A) :
  holds_along P step n i x = true ->
  forall j, (j < n)%nat -> P (i + Z.of_nat j)%Z (Nat.iter j step x) = true.
Proof.
  revert i x. induction n as [|n IH]; intros i x H j Hj; [lia|].
  simpl in H. destruct (P i x) eqn:E; [|discriminate].
  destruct j as [|j].
  - simpl. rewrite Z.add_0_r. exact E.
  - rewrite Nat.iter_succ_r.
    replace (i + Z.of_nat (S j))%Z with (i + 1 + Z.of_nat j)%Z by lia.
    apply IH; [exact H|lia].
Qed.

Lemma holds_along_prefix {A : Type} (P : Z -> A -> bool) (step : A -> A)
      (n : nat) (i : Z) (x : A) :
  holds_along P step n i x = true ->
  forall j, (j <= n)%nat -> holds_along P step j i x = true.
Proof.
  revert i x. induction n as [|n IH]; intros i x H j Hj.
  - replace j with 0%nat by lia. reflexivity.
  - destruct j as [|j]; [reflexivity|].
    simpl in *. destruct (P i x); [|discriminate].
    apply IH; [exact H|lia].
Qed.

(** One tick of shutdown cooling. *)
Lemma cooling_step (tout delta : float64) (w : World) :
  cooling tout w ->
  let s := state (reactor w) in
  let s' := state (reactor (Update delta w)) in
  cooling tout (Update delta w) /\
  FissionRate s' = 0 /\
  (Temperature s', PowerOutput s') = coolTick tout delta (Temperature s) /\
  ((tout <? 0) = false -> (PowerOutput s' <? 0) = false).
Proof.
  intros (Hc & Hs & HT & Hto). cbv zeta.
  destruct (Update_keeps delta w) as (Kon & _ & Ksc & Kc).
  destruct (Update_shutdown delta w Hs) as (Efr & Eto & ET & Epo & _).
  assert (Ep : turbinePower (reactor w) = turbinePower plant).
  { unfold turbinePower.
    destruct Hc as (_ & -> & _ & -> & _ & _ & _ & _ & _ & -> & _). reflexivity. }
  assert (Ec : shutdownCooled (reactor w) = shutdownCooled plant).
  { unfold shutdownCooled. rewrite Ep.
    destruct Hc as (_ & _ & _ & _ & _ & _ & _ & _ & -> & -> & _). reflexivity. }
  rewrite Ep, Ec, Hto in *.
  split; [|split; [exact Efr|split]].
  - split; [apply Kc, Hc|]. split; [|split].
    + unfold shutdown in *. rewrite Kon, Ksc. exact Hs.
    + rewrite ET.
      destruct (shutdownCooled plant _ tout delta <? 0) eqn:E; [reflexivity|exact E].
    + exact Eto.
  - rewrite ET, Epo. unfold coolTick.
    destruct (shutdownCooled plant _ tout delta <? 0); reflexivity.
  - intros Hn. rewrite Epo.
    destruct (shutdownCooled plant _ tout delta <? 0); [reflexivity|].
    unfold turbinePower, plant; simpl.
    repeat (first [apply min_not_neg | apply mul_not_neg | apply div_not_neg
                  | reflexivity | assumption]).
Qed.

Lemma Scram_cooling (w : World) :
  configured (reactor w) -> (Temperature (state (reactor w)) <? 0) = false ->
  cooling (TurbineOutput (state (reactor w))) (Scram w).
Proof.
  unfold cooling, configured, shutdown. open_command w.
  intros Hc HT. repeat split; tauto.
Qed.

(** A run of shutdown cooling follows the iteration of [coolTick] on the
    temperature. *)
Lemma cooling_ticks (tout delta : float64) (w : World) (n : nat) :
  cooling tout w ->
  let at_tick k := state (reactor (ticks k delta w)) in
  let T k := Nat.iter k (coolStep tout delta) (Temperature (state (reactor w))) in
  cooling tout (ticks n delta w) /\
  Temperature (at_tick n) = T n /\
  FissionRate (at_tick (S n)) = 0 /\
  PowerOutput (at_tick (S n)) = snd (coolTick tout delta (T n)) /\
  ((tout <? 0) = false -> (PowerOutput (at_tick (S n)) <? 0) = false).
Proof.
  intros Hw. cbv zeta.
  assert (Inv : cooling tout (ticks n delta w) /\
                Temperature (state (reactor (ticks n delta w))) =
                Nat.iter n (coolStep tout delta) (Temperature (state (reactor w)))).
  { induction n as [|n [IH1 IH2]]; [split; [exact Hw|reflexivity]|].
    rewrite ticks_S.
    destruct (cooling_step tout delta _ IH1) as (H1 & _ & H3 & _).
    split; [exact H1|].
    simpl Nat.iter. rewrite <- IH2. unfold coolStep. rewrite <- H3. reflexivity. }
  destruct Inv as [I1 I2]. split; [exact I1|]. split; [exact I2|].
  rewrite ticks_S.
  destruct (cooling_step tout delta _ I1) as (_ & H2 & H3 & H4).
  split; [exact H2|]. split; [|exact H4].
  rewrite <- I2, <- H3. reflexivity.
Qed.

(** The course of a cooling run from 950 degrees, read off a check of its
    first [N] ticks and of the state it then rests in. *)
Section CoolingProfile.

Variables (tout : float64) (dead N : Z).
Hypothesis Hdead : (1 <= dead <= N)%Z.
Hypothesis Hcheck :
  holds_along (coolingCheck tout dead) (coolStep tout 0.2) (Z.to_nat N) 0 950 = true.
Hypothesis Hrest : Nat.iter (Z.to_nat N) (coolStep tout 0.2) 950 = restTemperature.
Hypothesis Hfix : coolTick tout 0.2 restTemperature = (restTemperature, 0).

Lemma cooling_checked (k : nat) :
  (Z.of_nat k < N)%Z ->
  (coolRun tout (S k) <? coolRun tout k) = true /\ (0 <? coolRun tout (S k)) = true /\
  ((Z.of_nat (S k) < dead)%Z -> (0 <? snd (coolTick tout 0.2 (coolRun tout k))) = true) /\
  ((dead <= Z.of_nat (S k))%Z -> snd (coolTick tout 0.2 (coolRun tout k)) = 0).
Proof.
  intros Hk.
  pose proof (holds_along_spec _ _ _ _ _ Hcheck k ltac:(lia)) as H.
  unfold coolingCheck in H. fold (coolRun tout k) in H. rewrite Z.add_0_l in H.
  apply andb_true_iff in H as [H H3]. apply andb_true_iff in H as [H1 H2].
  change (coolRun tout (S k)) with (coolStep tout 0.2 (coolRun tout k)). unfold coolStep.
  split; [exact H1|]. split; [exact H2|].
  destruct (Z.ltb_spec (Z.of_nat k + 1) dead) as [Hlt|Hge].
  - split; [intros _; exact H3|lia].
  - split; [lia|intros _]. apply Leibniz.eqb_spec, H3.
Qed.

Lemma cooling_rests (k : nat) : (N <= Z.of_nat k)%Z -> coolRun tout k = restTemperature.
Proof.
  intros Hk. replace k with ((k - Z.to_nat N) + Z.to_nat N)%nat by lia.
  unfold coolRun. rewrite Nat.iter_add, Hrest.
  induction (k - Z.to_nat N)%nat as [|j IH]; [reflexivity|].
  simpl. rewrite IH. unfold coolStep. rewrite Hfix. reflexivity.
Qed.

Lemma cooling_profile (w : World) (n : nat) :
  cooling tout w -> Temperature (state (reactor w)) = 950 ->
  let at_tick k := state (reactor (ticks k 0.2 w)) in
  (0 <? Temperature (at_tick n)) = true /\
  ((Z.of_nat n < N)%Z ->
     (Temperature (at_tick (S n)) <? Temperature (at_tick n)) = true) /\
  ((N <= Z.of_nat n)%Z -> Temperature (at_tick n) = restTemperature) /\
  ((1 <= Z.of_nat n < dead)%Z -> (0 <? PowerOutput (at_tick n)) = true) /\
  ((dead <= Z.of_nat n)%Z -> PowerOutput (at_tick n) = 0).
Proof.
  intros Hw HT. cbv beta zeta.
  assert (ET : forall k, Temperature (state (reactor (ticks k 0.2 w))) = coolRun tout k).
  { intros k. destruct (cooling_ticks tout 0.2 w k Hw) as (_ & E & _).
    rewrite E, HT. reflexivity. }
  assert (EP : forall k, PowerOutput (state (reactor (ticks (S k) 0.2 w)))
                         = snd (coolTick tout 0.2 (coolRun tout k))).
  { intros k. destruct (cooling_ticks tout 0.2 w k Hw) as (_ & _ & _ & E & _).
    rewrite E, HT. reflexivity. }
  rewrite !ET.
  split; [|split; [|split; [|split]]].
  - destruct n as [|n]; [reflexivity|].
    destruct (Z_lt_le_dec (Z.of_nat n) N) as [Hlt|Hge].
    + apply (cooling_checked n Hlt).
    + rewrite cooling_rests by lia. reflexivity.
  - intros Hn. apply (cooling_checked n Hn).
  - apply cooling_rests.
  - intros Hn. destruct n as [|n]; [lia|]. rewrite EP.
    apply (cooling_checked n); lia.
  - intros Hn. destruct n as [|n]; [lia|]. rewrite EP.
    destruct (Z_lt_le_dec (Z.of_nat n) N) as [Hlt|Hge].
    + apply (cooling_checked n Hlt). exact Hn.
    + rewrite cooling_rests by exact Hge. rewrite Hfix. reflexivity.
Qed.

End CoolingProfile.

(** The two runs from 950 degrees, checked tick by tick: at the initial
    turbine output, and with the turbine output at 0. *)
Lemma initial_run_checked :
  holds_along (coolingCheck initialTurbine 18493) (coolStep initialTurbine 0.2)
              (Z.to_nat 36905) 0 950 = true /\
  Nat.iter (Z.to_nat 36905) (coolStep initialTurbine 0.2) 950 = restTemperature /\
  coolTick initialTurbine 0.2 restTemperature = (restTemperature, 0).
Proof. split; [|split]; vm_compute; reflexivity. Qed.

Lemma idle_run_checked :
  holds_along (coolingCheck 0 1) (coolStep 0 0.2) (Z.to_nat 37024) 0 950 = true /\
  Nat.iter (Z.to_nat 37024) (coolStep 0 0.2) 950 = restTemperature /\
  coolTick 0 0.2 restTemperature = (restTemperature, 0).
Proof. split; [|split]; vm_compute; reflexivity. Qed.



(** ** Fuel *)

(** A tick of a running reactor whose rod [p] still has fuel: the rod loses
    what the fission rate at work during the tick consumes, floored at 0;
    an emptied rod is dropped and FuelOut raised. *)
Lemma Update_running_fuel (delta : float64) (w : World) (p : nat) :
  let r := reactor w in
  let s := state r in
  let w' := Update delta w in
  let s' := state (reactor w') in
  shutdown w = false ->
  FuelRodPtr s = Some p -> (p < length (heap w))%nat ->
  (Condition (load (heap w) p) >? 0) = true ->
  let c' := max 0 (Condition (load (heap w) p)
                   - FissionRate s' / 100 * FUEL_CONSUMPTION_RATE r * delta) in
  Condition (load (heap w') p) = c' /\
  length (heap w') = length (heap w) /\
  FuelRodPtr s' = (if c' <=? 0 then None else Some p) /\
  hasFlag (Status s') StatusFuelOut = (c' <=? 0) /\
  (IsAutoControl s = false -> FissionRate s' = FissionRate s).
Proof.
  unfold shutdown. open_world w. intros Hs -> Hp Hc.
  unfold Update; fields; name_grid. rewrite Hs.
  destruct IsAutoControl0; unfold runAutoControlLocked; fields; rewrite Hc;
    split_if; name_status;
    destruct Flags as (_ & _ & _ & _ & _ & _ & Fout & _ & Frod);
    rewrite Fout, Frod, length_store, !load_store by exact Hp;
    repeat split; try reflexivity; discriminate.
Qed.

Lemma Update_shutdown_fuel (delta : float64) (w : World) :
  shutdown w = true ->
  let s := state (reactor w) in
  let s' := state (reactor (Update delta w)) in
  let out :=
    match FuelRodPtr s with
    | None => true
    | Some p => Condition (load (heap w) p) <=? 0
    end in
  hasFlag (Status s') StatusFuelOut = out /\
  FuelRodPtr s' = (if out then None else FuelRodPtr s).
Proof.
  unfold shutdown. open_world w. intros Hs.
  unfold Update; fields; name_grid. rewrite Hs.
  split_if; name_status;
    destruct Flags as (_ & _ & _ & _ & _ & _ & Fout & _ & Frod);
    rewrite Fout, Frod; split; reflexivity.
Qed.

Lemma Refuel_frame (w : World) :
  let s := state (reactor w) in
  let w' := Refuel w in
  let s' := state (reactor w') in
  FuelRodPtr s' = Some (length (heap w)) /\
  rodCondition (heap w') s' = Some 100 /\
  Status s' = Status s /\
  set_FuelRodPtr (FuelRodPtr s) s' = s /\
  set_state s (reactor w') = reactor w /\
  rand w' = rand w /\
  length (heap w') = S (length (heap w)) /\
  (forall p, (p < length (heap w))%nat -> load (heap w') p = load (heap w) p).
Proof.
  unfold rodCondition. open_command w.
  pose proof (load_alloc_new heap0 (mkFuelRod 100)) as Hn.
  unfold alloc in Hn; simpl in Hn. rewrite Hn.
  repeat split.
  - rewrite length_app. simpl. lia.
  - intros p Hp. unfold load. apply app_nth1, Hp.
Qed.

Lemma Refuel_valid (w : World) :
  configured (reactor w) -> valid w ->
  configured (reactor (Refuel w)) /\ valid (Refuel w).
Proof.
  unfold configured, valid, rodCondition. open_command w.
  pose proof (load_alloc_new heap0 (mkFuelRod 100)) as Hn.
  unfold alloc in Hn; simpl in Hn. rewrite Hn.
  intros Hc (Hfr & Hto & HT & Hpo & Hpl & _).
  split; [exact Hc|]. unfold between in *. repeat split; tauto.
Qed.

Lemma Refuel_then_status (w : World) :
  let w' := Refuel w in
  let r'' := updateStatusLocked (heap w') (reactor w') in
  hasFlag (Status (state r'')) StatusFuelOut = false /\
  FuelRodPtr (state r'') = FuelRodPtr (state (reactor w')).
Proof.
  cbv zeta.
  pose proof (updateStatusLocked_flags (heap (Refuel w)) (reactor (Refuel w))) as F.
  cbv zeta in F. destruct F as (_ & _ & _ & _ & _ & _ & Fout & _ & Frod).
  destruct (Refuel_frame w) as (Ep & Ec & _).
  unfold rodCondition in Ec. rewrite Ep in *.
  assert (Ec' : Condition (load (heap (Refuel w)) (length (heap w))) = 100)
    by congruence.
  rewrite Ec' in Fout, Frod.
  rewrite Fout, Frod. split; reflexivity.
Qed.

(** [max 0 x] is at most 0 exactly when [x] is, and is then a zero. *)
Lemma max_zero (x : float64) :
  (max 0 x <=? 0) = (x <=? 0) /\
  ((x <=? 0) = true -> (max 0 x =? 0) = true).
Proof.
  unfold max, gtb. destruct (x <? 0) eqn:E.
  - rewrite (ltb_leb _ _ E). split; reflexivity.
  - split; [reflexivity|]. revert E.
    rewrite ltb_spec, leb_spec, eqb_spec. unfold SFltb, SFleb, SFeqb.
    destruct (SFcompare (Prim2SF x) (Prim2SF 0)) as [[]|]; congruence.
Qed.

(** One tick of a reactor burning the rod at [p] under manual control. *)
Lemma burning_step (f delta : float64) (p : nat) (w : World) :
  burning f p w -> (Condition (load (heap w) p) >? 0) = true ->
  let c' := burnTick (fuelConsumed f delta) (Condition (load (heap w) p)) in
  let w' := Update delta w in
  Condition (load (heap w') p) = c' /\
  hasFlag (Status (state (reactor w'))) StatusFuelOut = (c' <=? 0) /\
  ((c' <=? 0) = true -> FuelRodPtr (state (reactor w')) = None) /\
  ((c' <=? 0) = false -> burning f p w').
Proof.
  intros (Hc & Hs & Ha & Hf & Hp & Hlen) Hpos. cbv zeta.
  destruct (Update_running_fuel delta w p Hs Hp Hlen Hpos)
    as (Ec & El & Er & Eo & Ef).
  destruct (Update_keeps delta w) as (Kon & Kau & Ksc & Kc).
  assert (Ef' : FissionRate (state (reactor (Update delta w))) = f)
    by (rewrite (Ef Ha); exact Hf).
  assert (EF : FUEL_CONSUMPTION_RATE (reactor w) = FUEL_CONSUMPTION_RATE plant)
    by (destruct Hc as (_ & _ & _ & _ & _ & _ & -> & _); reflexivity).
  rewrite Ef', EF in Ec, Er, Eo. clear Ef EF.
  fold (fuelConsumed f delta) in Ec, Er, Eo.
  fold (burnTick (fuelConsumed f delta) (Condition (load (heap w) p))) in Ec, Er, Eo.
  split; [exact Ec|]. split; [exact Eo|]. split; intros E; rewrite E in Er.
  - exact Er.
  - unfold burning, shutdown in *. rewrite Kon, Kau, Ksc, El.
    split; [apply Kc, Hc|]. repeat split; assumption.
Qed.

(** A run of ticks each of which leaves fuel in the rod. *)
Lemma burning_ticks (f delta c0 : float64) (p : nat) (w : World) (n : nat) :
  burning f p w -> Condition (load (heap w) p) = c0 ->
  holds_along (burningCheck (fuelConsumed f delta)) (burnTick (fuelConsumed f delta))
              n 0 c0 = true ->
  burning f p (ticks n delta w) /\
  Condition (load (heap (ticks n delta w)) p)
    = Nat.iter n (burnTick (fuelConsumed f delta)) c0.
Proof.
  intros Hb Hc0 Hchk.
  pose proof (holds_along_spec _ _ _ _ _ Hchk) as H. clear Hchk.
  induction n as [|n IH]; [split; assumption|].
  assert (IH' : forall j, (j < n)%nat ->
            burningCheck (fuelConsumed f delta) (0 + Z.of_nat j)
              (Nat.iter j (burnTick (fuelConsumed f delta)) c0) = true)
    by (intros j Hj; apply H; lia).
  destruct (IH IH') as [IH1 IH2]. clear IH IH'.
  specialize (H n ltac:(lia)). rewrite Z.add_0_l in H.
  unfold burningCheck in H. apply andb_true_iff in H as [H1 H2].
  apply negb_true_iff in H2. rewrite <- IH2 in H1, H2.
  rewrite ticks_S.
  destruct (burning_step f delta p _ IH1 H1) as (Ec & _ & _ & Eb).
  split; [exact (Eb H2)|]. rewrite Ec, IH2. reflexivity.
Qed.

(** The rod is exhausted by tick [n + 1] of a run whose first [n] ticks
    leave fuel and whose next one consumes what is left; from then on the
    rod is absent and FuelOut is set. *)
Lemma burning_exhausts (f delta c0 : float64) (p : nat) (w : World) (n : nat) :
  burning f p w -> Condition (load (heap w) p) = c0 ->
  let k := fuelConsumed f delta in
  holds_along (burningCheck k) (burnTick k) n 0 c0 = true ->
  (Nat.iter n (burnTick k) c0 >? 0) = true ->
  (burnTick k (Nat.iter n (burnTick k) c0) <=? 0) = true ->
  (forall j, (j <= n)%nat ->
     FuelRodPtr (state (reactor (ticks j delta w))) = Some p) /\
  FuelRodPtr (state (reactor (ticks (S n) delta w))) = None /\
  hasFlag (Status (state (reactor (ticks (S n) delta w)))) StatusFuelOut = true /\
  (Condition (load (heap (ticks (S n) delta w)) p) =? 0) = true.
Proof.
  intros Hb Hc0 k Hchk Hpos Hout. subst k. split.
  - intros j Hj.
    pose proof (holds_along_prefix _ _ _ _ _ Hchk j Hj) as Hj'.
    destruct (burning_ticks f delta c0 p w j Hb Hc0 Hj') as [(_ & _ & _ & _ & E & _) _].
    exact E.
  - destruct (burning_ticks f delta c0 p w n Hb Hc0 Hchk) as [Hbn Ecn].
    rewrite <- Ecn in Hpos, Hout. rewrite ticks_S.
    destruct (burning_step f delta p _ Hbn Hpos) as (Ec & Eo & Er & _).
    split; [exact (Er Hout)|]. split; [rewrite Eo; exact Hout|].
    rewrite Ec. unfold burnTick in *.
    apply max_zero. rewrite <- (proj1 (max_zero _)). exact Hout.
Qed.

(** Without a rod a tick burns nothing: the pointer stays [nil] and FuelOut
    is set. *)
Lemma Update_no_rod (delta : float64) (w : World) :
  FuelRodPtr (state (reactor w)) = None ->
  FuelRodPtr (state (reactor (Update delta w))) = None /\
  hasFlag (Status (state (reactor (Update delta w)))) StatusFuelOut = true /\
  heap (Update delta w) = heap w.
Proof.
  open_world w. intros ->. run_Update.
  all: unfold runAutoControlLocked in *; fields.
  all: try match goal with H : None = Some _ |- _ => discriminate H end.
  all: destruct Flags as (_ & _ & _ & _ & _ & _ & Fout & _ & Frod).
  all: rewrite Fout, Frod; repeat split.
Qed.

(** The tick after a refuel. *)
Lemma Refuel_then_Update (delta : float64) (w : World) :
  let w1 := Refuel w in
  let s2 := state (reactor (Update delta w1)) in
  let c' := max 0 (100 - FissionRate s2 / 100 * FUEL_CONSUMPTION_RATE (reactor w) * delta) in
  (shutdown w = true ->
     hasFlag (Status s2) StatusFuelOut = false /\
     FuelRodPtr s2 = FuelRodPtr (state (reactor w1))) /\
  (shutdown w = false ->
     hasFlag (Status s2) StatusFuelOut = (c' <=? 0) /\
     FuelRodPtr s2 = (if c' <=? 0 then None else FuelRodPtr (state (reactor w1)))).
Proof.
  cbv zeta.
  destruct (Refuel_frame w) as (Ep & Ec & Est & _ & Er & _ & El & _).
  unfold rodCondition in Ec. rewrite Ep in Ec.
  assert (Ec' : Condition (load (heap (Refuel w)) (length (heap w))) = 100)
    by congruence.
  clear Ec. rename Ec' into Ec.
  assert (Es : shutdown (Refuel w) = shutdown w)
    by (clear; open_command w; reflexivity).
  assert (EF : FUEL_CONSUMPTION_RATE (reactor (Refuel w)) = FUEL_CONSUMPTION_RATE (reactor w))
    by (clear; open_command w; reflexivity).
  split; intros Hs; rewrite <- Es in Hs.
  - destruct (Update_shutdown_fuel delta (Refuel w) Hs) as [Fo Fr].
    rewrite Ep, Ec in *. rewrite Fo, Fr. split; reflexivity.
  - assert (Hlen : (length (heap w) < length (heap (Refuel w)))%nat) by lia.
    assert (Hpos : (Condition (load (heap (Refuel w)) (length (heap w))) >? 0) = true)
      by (rewrite Ec; reflexivity).
    destruct (Update_running_fuel delta (Refuel w) _ Hs Ep Hlen Hpos)
      as (_ & _ & Er' & Eo & _).
    rewrite Ec, EF in Er', Eo. rewrite Er', Eo, Ep. split; reflexivity.
Qed.

(** The full rod burnt at the fission rate 100 in ticks of 0.2 s: 9999
    ticks leave fuel, the next one consumes the rest. *)
Lemma full_burn_checked :
  let k := fuelConsumed 100 0.2 in
  holds_along (burningCheck k) (burnTick k) (Z.to_nat 9999) 0 100 = true /\
  (Nat.iter (Z.to_nat 9999) (burnTick k) 100 >? 0) = true /\
  (burnTick k (Nat.iter (Z.to_nat 9999) (burnTick k) 100) <=? 0) = true.
Proof. split; [|split]; vm_compute; reflexivity. Qed.


(** ** The running branch of a tick *)

Lemma Update_running (delta : float64) (w : World) :
  shutdown w = false ->
  let r := reactor w in
  let s := state r in
  let w' := Update delta w in
  let s' := state (reactor w') in
  let T1 := if hasFuel w
            then Temperature s + FissionRate s' / 100 * HEAT_GENERATION_RATE r * delta
            else Temperature s in
  let T2 := runningCooled r T1 (TurbineOutput s') delta in
  PowerOutput s' = turbinePower r T1 (TurbineOutput s') /\
  Temperature s' = (if T2 <? 0 then 0 else T2) /\
  (IsAutoControl s = false ->
     FissionRate s' = FissionRate s /\ TurbineOutput s' = TurbineOutput s) /\
  (IsAutoControl s = true ->
     FissionRate s' =
       clamp (FissionRate s + (OPTIMAL_TEMP r - Temperature s) * 0.002) 0 100 /\
     TurbineOutput s' =
       clamp (TurbineOutput s + (PowerLoad s' - PowerOutput s) * 0.01) 0 100) /\
  heap w' =
    match FuelRodPtr s with
    | Some p =>
        if hasFuel w
        then store (heap w) p
               (mkFuelRod (max 0 (Condition (load (heap w) p)
                                  - FissionRate s' / 100
                                    * FUEL_CONSUMPTION_RATE r * delta)))
        else heap w
    | None => heap w
    end.
Proof.
  unfold shutdown, hasFuel, runningCooled, turbinePower. open_world w. intros Hs.
  unfold Update; fields; name_grid. rewrite Hs.
  destruct IsAutoControl0; unfold runAutoControlLocked; fields.
  all: destruct FuelRodPtr0 as [p|]; fields;
       [destruct (Condition (load heap0 p) >? 0) eqn:Ec; fields|].
  all: split_if; name_status;
       destruct Flags as (_ & _ & _ & _ & _ & _ & Fout & _ & Frod);
       rewrite ?Fout, ?Frod;
       match goal with H : (_ <? 0) = _ |- _ => rewrite ?H end.
  all: repeat split; try reflexivity; try discriminate.
Qed.

(** ** The heap under [store] *)

Lemma load_store_other (h : Heap) (p q : nat) (v : FuelRod) :
  p <> q -> load (store h p v) q = load h q.
Proof.
  unfold load. revert p q. induction h as [|x h IH]; intros p q Hpq; simpl.
  - reflexivity.
  - destruct p as [|p]; destruct q as [|q]; simpl; try reflexivity.
    + congruence.
    + apply IH. congruence.
Qed.

Lemma store_unallocated (h : Heap) (p : nat) (v : FuelRod) :
  (length h <= p)%nat -> store h p v = h.
Proof.
  revert p. induction h as [|x h IH]; intros p Hp; simpl in *.
  - reflexivity.
  - destruct p as [|p]; [lia|]. rewrite IH by lia. reflexivity.
Qed.

(** ** The status word as a byte *)

Lemma byte_mask (st : Z) : (0 <= st < 256)%Z <-> Z.land st 255 = st.
Proof.
  change 255%Z with (Z.ones 8). rewrite Z.land_ones by lia.
  change (2 ^ 8)%Z with 256%Z. split; intros H.
  - apply Z.mod_small, H.
  - rewrite <- H. apply Z.mod_pos_bound. lia.
Qed.

Lemma byte_lor (a b : Z) :
  (0 <= a < 256)%Z -> (0 <= b < 256)%Z -> (0 <= Z.lor a b < 256)%Z.
Proof.
  rewrite !byte_mask. intros Ha Hb.
  rewrite Z.land_lor_distr_l, Ha, Hb. reflexivity.
Qed.

Lemma byte_ldiff (a b : Z) : (0 <= a < 256)%Z -> (0 <= Z.ldiff a b < 256)%Z.
Proof.
  rewrite !byte_mask. intros Ha.
  apply Z.bits_inj'. intros n Hn.
  rewrite Z.land_spec, !Z.ldiff_spec.
  rewrite <- Ha at 2. rewrite Z.land_spec.
  destruct (Z.testbit a n), (Z.testbit b n), (Z.testbit 255 n); reflexivity.
Qed.

Lemma byte_land_l (a b : Z) : (0 <= b < 256)%Z -> (0 <= Z.land a b < 256)%Z.
Proof.
  rewrite !byte_mask. intros Hb.
  rewrite <- Z.land_assoc, Hb. reflexivity.
Qed.

Lemma updateStatusLocked_byte (h : Heap) (r : Reactor) :
  (0 <= Status (state (updateStatusLocked h r)) < 256)%Z.
Proof.
  destruct r as [s]; destruct s.
  unfold updateStatusLocked; fields.
  assert (Hs : (0 <= Z.land Status0 StatusScram < 256)%Z)
    by (apply byte_land_l; vm_compute; split; [discriminate|reflexivity]).
  revert Hs. generalize (Z.land Status0 StatusScram). intros c Hc.
  assert (L : forall (t : bool) (x f : Z),
             (0 <= x < 256)%Z -> (0 <= f < 256)%Z ->
             (0 <= (if t then Z.lor x f else x) < 256)%Z).
  { intros t x f Hx Hf. destruct t; [apply byte_lor; assumption|exact Hx]. }
  assert (F : forall f, In f flags -> (0 <= f < 256)%Z).
  { intros f Hf. unfold flags in Hf.
    repeat (destruct Hf as [<-|Hf];
            [vm_compute; split; [discriminate|reflexivity]|]).
    destruct Hf. }
  match goal with
  | |- context [let '(_, _) := ?x in _] =>
      assert (Hx : (0 <= fst x < 256)%Z); [|destruct x; exact Hx]
  end.
  assert (Hheat : forall m o l,
            (0 <= (if m : bool then Z.lor c StatusMeltdown
                   else if o : bool then Z.lor c StatusOverheat
                   else if l : bool then Z.lor c StatusTempLow else c) < 256)%Z).
  { intros m o l. destruct m, o, l; try exact Hc; apply byte_lor; try exact Hc;
      apply F; in_flags. }
  match goal with
  | |- context [if ?m then Z.lor c StatusMeltdown else if ?o then _ else if ?l then _ else _] =>
      specialize (Hheat m o l); revert Hheat;
      generalize (if m then Z.lor c StatusMeltdown
                  else if o then Z.lor c StatusOverheat
                  else if l then Z.lor c StatusTempLow else c)
  end.
  intros c1 Hc1.
  match goal with
  | |- context [if ?t then Z.lor c1 StatusOutputHigh else c1] =>
      pose proof (L t c1 StatusOutputHigh Hc1 (F _ ltac:(in_flags))) as Hc2;
      revert Hc2; generalize (if t then Z.lor c1 StatusOutputHigh else c1)
  end.
  intros c2 Hc2.
  match goal with
  | |- context [if ?t then Z.lor c2 StatusOutputLow else c2] =>
      pose proof (L t c2 StatusOutputLow Hc2 (F _ ltac:(in_flags))) as Hc3;
      revert Hc3; generalize (if t then Z.lor c2 StatusOutputLow else c2)
  end.
  intros c3 Hc3.
  destruct FuelRodPtr0 as [p|]; simpl fst.
  - destruct (Condition (load h p) <=? 0); simpl fst;
      [apply byte_lor; [exact Hc3|apply F; in_flags]|].
    destruct (Condition (load h p) <? LOW_FUEL_THRESHOLD0); simpl fst;
      [apply byte_lor; [exact Hc3|apply F; in_flags]|exact Hc3].
  - apply byte_lor; [exact Hc3|apply F; in_flags].
Qed.
(** ** What every operation keeps *)

Lemma Update_ends_with_status_on_heap (delta : float64) (w : World) :
  exists r,
    reactor (Update delta w) = updateStatusLocked (heap (Update delta w)) r /\
    FuelRodPtr (state r) = FuelRodPtr (state (reactor w)).
Proof.
  open_world w. unfold Update; fields; name_grid.
  match goal with |- context [if ?c then _ else _] => destruct c end; fields.
  - match goal with |- context [if ?c then _ else _] => destruct c end; fields;
      eexists; split; reflexivity.
  - destruct IsAutoControl0; unfold runAutoControlLocked; fields.
    all: destruct FuelRodPtr0 as [p|]; fields.
    all: repeat match goal with
         | |- context [if ?c then _ else _] => destruct c; fields
         end.
    all: eexists; split; reflexivity.
Qed.

Lemma max_not_neg (x : float64) : (max 0 x <? 0) = false.
Proof. unfold max, gtb. destruct (x <? 0) eqn:E; [reflexivity|exact E]. Qed.

(** The pointer and FuelOut after a tick, from the rod as the tick leaves
    it: the status recomputation is the only place that assigns the
    pointer. *)
Lemma Update_rod_pointer (delta : float64) (w : World) :
  let s := state (reactor w) in
  let w' := Update delta w in
  let s' := state (reactor w') in
  let out :=
    match FuelRodPtr s with
    | None => true
    | Some p => Condition (load (heap w') p) <=? 0
    end in
  hasFlag (Status s') StatusFuelOut = out /\
  FuelRodPtr s' = (if out then None else FuelRodPtr s).
Proof.
  cbv zeta. destruct (Update_ends_with_status_on_heap delta w) as (r & Eu & Er).
  pose proof (updateStatusLocked_flags (heap (Update delta w)) r) as F.
  cbv zeta in F. rewrite <- Eu, Er in F.
  destruct F as (_ & _ & _ & _ & _ & _ & Fout & _ & Frod).
  split; assumption.
Qed.

(** The rods across a tick: none is created or lost, only the rod in use
    can change, the pointer is kept or dropped, a rod still pointed to is
    not empty, and the rod in use is not left with a negative condition. *)
Lemma Update_rods (delta : float64) (w : World) :
  rod_allocated w ->
  let s := state (reactor w) in
  let w' := Update delta w in
  let s' := state (reactor w') in
  length (heap w') = length (heap w) /\
  (forall q, FuelRodPtr s <> Some q -> load (heap w') q = load (heap w) q) /\
  (FuelRodPtr s' = None \/ FuelRodPtr s' = FuelRodPtr s) /\
  (forall p, FuelRodPtr s' = Some p -> (Condition (load (heap w') p) <=? 0) = false) /\
  (forall p, FuelRodPtr s = Some p ->
     (Condition (load (heap w) p) <? 0) = false ->
     (Condition (load (heap w') p) <? 0) = false).
Proof.
  intros Ha. cbv zeta. unfold rod_allocated in Ha.
  destruct (Update_rod_pointer delta w) as [_ Er]. cbv zeta in Er.
  assert (Hptr :
    (FuelRodPtr (state (reactor (Update delta w))) = None \/
     FuelRodPtr (state (reactor (Update delta w))) = FuelRodPtr (state (reactor w))) /\
    (forall p, FuelRodPtr (state (reactor (Update delta w))) = Some p ->
       (Condition (load (heap (Update delta w)) p) <=? 0) = false)).
  { rewrite Er. destruct (FuelRodPtr (state (reactor w))) as [p|].
    - destruct (Condition (load (heap (Update delta w)) p) <=? 0) eqn:E0.
      + split; [left; reflexivity|intros p' Hp'; discriminate].
      + split; [right; reflexivity|]. intros p' Hp'. injection Hp' as <-. exact E0.
    - split; [left; reflexivity|intros p' Hp'; discriminate]. }
  destruct Hptr as [Hp1 Hp2].
  assert (Hheap :
    length (heap (Update delta w)) = length (heap w) /\
    (forall q, FuelRodPtr (state (reactor w)) <> Some q ->
       load (heap (Update delta w)) q = load (heap w) q) /\
    (forall p, FuelRodPtr (state (reactor w)) = Some p ->
       (Condition (load (heap w) p) <? 0) = false ->
       (Condition (load (heap (Update delta w)) p) <? 0) = false)).
  { destruct (shutdown w) eqn:Hs.
    - destruct (Update_shutdown delta w Hs) as (_ & _ & _ & _ & Eh).
      rewrite Eh. repeat split; auto.
    - destruct (Update_running delta w Hs) as (_ & _ & _ & _ & Eh).
      destruct (hasFuel w) eqn:Hfuel.
      + unfold hasFuel in Hfuel.
        destruct (FuelRodPtr (state (reactor w))) as [p|] eqn:Ep; [|discriminate].
        destruct (Update_running_fuel delta w p Hs Ep Ha Hfuel) as (Ec & El & _).
        split; [exact El|]. split.
        * intros q Hq. rewrite Eh. apply load_store_other. congruence.
        * intros p' Hp' _. injection Hp' as <-. rewrite Ec. apply max_not_neg.
      + assert (Eh' : heap (Update delta w) = heap w).
        { rewrite Eh. destruct (FuelRodPtr (state (reactor w))); reflexivity. }
        rewrite Eh'. repeat split; auto. }
  destruct Hheap as (H1 & H2 & H3).
  split; [exact H1|]. split; [exact H2|]. split; [exact Hp1|].
  split; [exact Hp2|exact H3].
Qed.

Lemma Update_kept (delta : float64) (w : World) :
  (delta <? 0) = false -> kept w -> kept (Update delta w).
Proof.
  intros Hd (Hc & [F0 F1] & [O0 O1] & HT & _ & Ha & Hrod & _).
  destruct (Update_keeps delta w) as (_ & _ & _ & Kc).
  destruct (Update_not_outside delta w Hd Hc F0 F1 O0 O1 HT) as (B1 & B2 & B3 & B4).
  destruct (Update_rods delta w Ha) as (El & _ & Er & _ & Ec).
  destruct (Update_ends_with_status_on_heap delta w) as (r & Eu & _).
  split; [apply Kc, Hc|]. split; [exact B1|]. split; [exact B2|].
  split; [exact B3|]. split; [exact B4|]. split; [|split].
  - unfold rod_allocated in *. rewrite El.
    destruct Er as [-> | ->]; [exact I|exact Ha].
  - unfold rodCondition in *.
    destruct Er as [-> | E]; [exact I|]. rewrite E.
    destruct (FuelRodPtr (state (reactor w))) as [p|]; [|exact I].
    apply (Ec p eq_refl Hrod).
  - rewrite Eu. apply updateStatusLocked_byte.
Qed.

Lemma exec_kept (o : Op) (w : World) : timed o -> kept w -> kept (exec o w).
Proof.
  destruct o; simpl exec; simpl timed; intros Ht Hs;
    try (apply Update_kept; assumption).
  all: revert Hs; unfold kept, configured, inside, rod_allocated, rodCondition;
       open_command w; intros (Hc & Hf & Hto & HT & Hpo & Ha & Hr & Hst).
  - (* PowerOn *)
    destruct IsPoweredOn0; fields; repeat split; try tauto.
    all: apply byte_ldiff; exact Hst.
  - (* PowerOff *) repeat split; tauto.
  - (* Scram *)
    repeat split; try tauto.
    all: apply byte_lor; [exact Hst|vm_compute; split; [discriminate|reflexivity]].
  - (* ToggleAuto *) repeat split; tauto.
  - (* Refuel *)
    pose proof (load_alloc_new heap0 (mkFuelRod 100)) as Hn.
    unfold alloc in Hn; simpl in Hn. rewrite Hn.
    repeat split; try tauto.
    rewrite length_app; simpl; lia.
  - (* SetFissionRate *)
    destruct IsAutoControl0; fields; repeat split; try tauto;
      apply clamp_not_outside; reflexivity.
  - (* SetTurbineOutput *)
    destruct IsAutoControl0; fields; repeat split; try tauto;
      apply clamp_not_outside; reflexivity.
  - (* SetPowerLoad *)
    repeat split; tauto.
Qed.

Lemma initWorld_kept (g : Rng) : kept (initWorld g).
Proof.
  unfold kept, configured, inside, rod_allocated, rodCondition.
  simpl. repeat split; try reflexivity; lia.
Qed.

Lemma run_kept (ops : list Op) (w : World) :
  Forall timed ops -> kept w -> kept (run ops w).
Proof.
  revert w. induction ops as [|o ops IH]; intros w Ht Hs; simpl.
  - exact Hs.
  - inversion Ht as [|? ? Ho Hops]; subst.
    apply IH; [exact Hops|]. apply exec_kept; assumption.
Qed.

(** X1. In every state the process reaches, no reading is a number outside
    its range: the state [NewReactor] builds is [kept], and each command
    and each tick of non-negative length keeps it so.  In particular
    fissionRate and turbineOutput are never below 0 or above 100, the
    temperature is never negative, powerOutput is never negative or above
    5000, the rod pointer refers to an allocated rod whose condition is
    not negative, and the status word stays below 256. *)
Theorem range_invariant :
  (forall g, kept (initWorld g)) /\
  (forall o w, timed o -> kept w -> kept (exec o w)) /\
  (forall g ops, Forall timed ops -> kept (run ops (initWorld g))).
Proof.
  split; [exact initWorld_kept|]. split; [exact exec_kept|].
  intros g ops Ht. apply run_kept; [exact Ht|apply initWorld_kept].
Qed.

Lemma range_invariant_witness :
  timed (OpAdvance 0.2) /\ kept startWorld /\
  kept (exec (OpAdvance 0.2) startWorld).
Proof.
  assert (Ht : timed (OpAdvance 0.2)) by reflexivity.
  assert (Hs : kept startWorld) by (apply (proj1 range_invariant)).
  split; [exact Ht|]. split; [exact Hs|].
  exact (proj1 (proj2 range_invariant) (OpAdvance 0.2) startWorld Ht Hs).
Defined.

(** ** Fuel across a tick *)

(** X2. A tick never creates or loses a rod and never touches a rod other
    than the one in use: the heap keeps its size, every rod the state does
    not point to is unchanged, the pointer is kept or dropped (never
    redirected), a rod still pointed to afterwards is not empty, and the
    rod in use is not left with a negative condition. *)
Theorem tick_only_burns (delta : float64) (w : World) :
  rod_allocated w ->
  let s := state (reactor w) in
  let w' := Update delta w in
  let s' := state (reactor w') in
  length (heap w') = length (heap w) /\
  (forall q, FuelRodPtr s <> Some q -> load (heap w') q = load (heap w) q) /\
  (FuelRodPtr s' = None \/ FuelRodPtr s' = FuelRodPtr s) /\
  (forall p, FuelRodPtr s' = Some p -> (Condition (load (heap w') p) <=? 0) = false) /\
  (forall p, FuelRodPtr s = Some p ->
     (Condition (load (heap w) p) <? 0) = false ->
     (Condition (load (heap w') p) <? 0) = false).
Proof. exact (Update_rods delta w). Qed.

Lemma tick_only_burns_witness :
  rod_allocated startWorld /\
  length (heap (Update 0.2 startWorld)) = length (heap startWorld).
Proof.
  assert (Ha : rod_allocated startWorld) by (cbv; lia).
  split; [exact Ha|].
  exact (proj1 (tick_only_burns 0.2 startWorld Ha)).
Defined.

(** ** The status word read back from the state *)

Lemma updateStatusLocked_reads (h : Heap) (r : Reactor) :
  configured r ->
  let s := state r in
  let s' := state (updateStatusLocked h r) in
  (hasFlag (Status s') StatusScram = hasFlag (Status s) StatusScram) /\
  (hasFlag (Status s') StatusMeltdown = (Temperature s' >=? 900)) /\
  (hasFlag (Status s') StatusOverheat =
     (Temperature s' >=? 600) && negb (Temperature s' >=? 900)) /\
  (hasFlag (Status s') StatusTempLow =
     (Temperature s' <? 200) && IsPoweredOn s' && (PowerOutput s' >? 0)) /\
  (hasFlag (Status s') StatusOutputHigh =
     (PowerOutput s' - PowerLoad s' >? PowerLoad s' * 0.2) && (PowerLoad s' >? 100)) /\
  (hasFlag (Status s') StatusOutputLow =
     (PowerOutput s' - PowerLoad s' <? (- PowerLoad s') * 0.2) && (PowerLoad s' >? 100)) /\
  (hasFlag (Status s') StatusFuelOut = true <-> FuelRodPtr s' = None) /\
  (hasFlag (Status s') StatusFuelLow = true <->
     exists p, FuelRodPtr s' = Some p /\ (Condition (load h p) <? 20) = true) /\
  (forall p, FuelRodPtr s' = Some p -> (Condition (load h p) <=? 0) = false).
Proof.
  intros Hc. pose proof (updateStatusLocked_flags h r) as F.
  destruct (updateStatusLocked_shape h r) as (st' & rod' & E).
  cbv zeta in *. rewrite E in *. clear E. revert Hc F. unfold configured.
  destruct r as [s]; destruct s. fields.
  intros (_ & _ & -> & -> & -> & _ & _ & _ & _ & _ & -> & _).
  intros (Fs & Fm & Fo & Ft & Fh & Fl & Fout & Flow & Frod).
  rewrite Fs, Fm, Fo, Ft, Fh, Fl, Fout, Flow, Frod. clear.
  split; [reflexivity|]. split; [reflexivity|].
  split; [apply andb_comm|].
  split.
  { unfold geb. destruct (Temperature0 <? 200) eqn:E; simpl;
      [|rewrite !andb_false_r; reflexivity].
    assert (E9 : (900 <=? Temperature0) = false).
    { destruct (900 <=? Temperature0) eqn:E9; [|reflexivity].
      pose proof (leb_ltb_trans _ _ _ E9 E) as H. discriminate H. }
    assert (E6 : (600 <=? Temperature0) = false).
    { destruct (600 <=? Temperature0) eqn:E6; [|reflexivity].
      pose proof (leb_ltb_trans _ _ _ E6 E) as H. discriminate H. }
    rewrite E9, E6. reflexivity. }
  split; [reflexivity|]. split; [reflexivity|].
  destruct FuelRodPtr0 as [p|].
  - destruct (Condition (load h p) <=? 0) eqn:E0.
    + split; [tauto|]. split.
      * split; [discriminate|]. intros (q & Hq & _). discriminate.
      * intros q Hq. discriminate.
    + split; [split; discriminate|]. split.
      * rewrite andb_true_l. split.
        -- intros H. exists p. split; [reflexivity|exact H].
        -- intros (q & Hq & H). injection Hq as <-. exact H.
      * intros q Hq. injection Hq as <-. exact E0.
  - split; [tauto|]. split.
    + split; [discriminate|]. intros (q & Hq & _). discriminate.
    + intros q Hq. discriminate.
Qed.

Lemma Update_reads (delta : float64) (w : World) :
  configured (reactor w) ->
  let w' := Update delta w in
  let s' := state (reactor w') in
  (hasFlag (Status s') StatusScram
     = hasFlag (Status (state (reactor w))) StatusScram) /\
  (hasFlag (Status s') StatusMeltdown = (Temperature s' >=? 900)) /\
  (hasFlag (Status s') StatusOverheat =
     (Temperature s' >=? 600) && negb (Temperature s' >=? 900)) /\
  (hasFlag (Status s') StatusTempLow =
     (Temperature s' <? 200) && IsPoweredOn s' && (PowerOutput s' >? 0)) /\
  (hasFlag (Status s') StatusOutputHigh =
     (PowerOutput s' - PowerLoad s' >? PowerLoad s' * 0.2) && (PowerLoad s' >? 100)) /\
  (hasFlag (Status s') StatusOutputLow =
     (PowerOutput s' - PowerLoad s' <? (- PowerLoad s') * 0.2) && (PowerLoad s' >? 100)) /\
  (hasFlag (Status s') StatusFuelOut = true <-> FuelRodPtr s' = None) /\
  (hasFlag (Status s') StatusFuelLow = true <->
     exists p, FuelRodPtr s' = Some p /\ (Condition (load (heap w') p) <? 20) = true) /\
  (forall p, FuelRodPtr s' = Some p -> (Condition (load (heap w') p) <=? 0) = false) /\
  (is_nan (Temperature s') = true ->
     hasFlag (Status s') StatusMeltdown = false /\
     hasFlag (Status s') StatusOverheat = false /\
     hasFlag (Status s') StatusTempLow = false).
Proof.
  intros Hc. cbv zeta.
  destruct (Update_keeps delta w) as (_ & _ & Ks & Kc).
  destruct (Update_ends_with_status_on_heap delta w) as (r & E & _).
  assert (Hr : configured r).
  { specialize (Kc Hc). rewrite E in Kc.
    destruct (updateStatusLocked_shape (heap (Update delta w)) r) as (a & b & E').
    rewrite E' in Kc. destruct r as [s]; destruct s. exact Kc. }
  pose proof (updateStatusLocked_reads (heap (Update delta w)) r Hr) as R.
  cbv zeta in R. rewrite <- E in R.
  destruct R as (_ & R1 & R2 & R3 & R4 & R5 & R6 & R7 & R8).
  split; [exact Ks|]. repeat (split; [assumption|]).
  intros Hn. rewrite R1, R2, R3. unfold geb.
  rewrite (nan_leb_r _ _ Hn), (nan_leb_r _ _ Hn), (nan_ltb_l _ _ Hn).
  repeat split.
Qed.

(** X3. After every tick the status word can be read back from the rest of
    the state: Meltdown is set exactly when temperature >= 900, Overheat
    when 600 <= temperature and not temperature >= 900, TempLow when
    temperature < 200 with the reactor on and delivering power, OutputHigh
    and OutputLow when the output is off the load by more than 20% of a load
    above 100, FuelOut when the rod pointer is [nil], FuelLow when a rod is
    present and below 20; a rod that is present is not empty, and Scram is
    what it was before the tick.  With a NaN temperature every heat flag is
    clear. *)
Theorem status_reads_state (delta : float64) (w : World) :
  configured (reactor w) ->
  let w' := Update delta w in
  let s' := state (reactor w') in
  (hasFlag (Status s') StatusScram
     = hasFlag (Status (state (reactor w))) StatusScram) /\
  (hasFlag (Status s') StatusMeltdown = (Temperature s' >=? 900)) /\
  (hasFlag (Status s') StatusOverheat =
     (Temperature s' >=? 600) && negb (Temperature s' >=? 900)) /\
  (hasFlag (Status s') StatusTempLow =
     (Temperature s' <? 200) && IsPoweredOn s' && (PowerOutput s' >? 0)) /\
  (hasFlag (Status s') StatusOutputHigh =
     (PowerOutput s' - PowerLoad s' >? PowerLoad s' * 0.2) && (PowerLoad s' >? 100)) /\
  (hasFlag (Status s') StatusOutputLow =
     (PowerOutput s' - PowerLoad s' <? (- PowerLoad s') * 0.2) && (PowerLoad s' >? 100)) /\
  (hasFlag (Status s') StatusFuelOut = true <-> FuelRodPtr s' = None) /\
  (hasFlag (Status s') StatusFuelLow = true <->
     exists p, FuelRodPtr s' = Some p /\ (Condition (load (heap w') p) <? 20) = true) /\
  (forall p, FuelRodPtr s' = Some p -> (Condition (load (heap w') p) <=? 0) = false) /\
  (is_nan (Temperature s') = true ->
     hasFlag (Status s') StatusMeltdown = false /\
     hasFlag (Status s') StatusOverheat = false /\
     hasFlag (Status s') StatusTempLow = false).
Proof. exact (Update_reads delta w). Qed.

Lemma status_reads_state_witness :
  configured (reactor startWorld) /\
  hasFlag (Status (state (reactor (Update 0.2 startWorld)))) StatusFuelOut = false.
Proof.
  assert (Hc : configured (reactor startWorld)) by (repeat split).
  split; [exact Hc|].
  destruct (status_reads_state 0.2 startWorld Hc) as (_ & _ & _ & _ & _ & _ & H & _).
  apply not_true_is_false. intros E.
  apply H in E. vm_compute in E. discriminate E.
Defined.

(** ** How the commands compose *)

Lemma clamp_fixed (v : float64) : clamp (clamp v 0 100) 0 100 = clamp v 0 100.
Proof.
  unfold clamp.
  destruct (v <? 0) eqn:E1; [reflexivity|].
  destruct (v >? 100) eqn:E2; [reflexivity|].
  rewrite E1, E2. reflexivity.
Qed.

Lemma max_fixed (v : float64) : max 0 (max 0 v) = max 0 v.
Proof.
  unfold max. destruct (0 >? v) eqn:E; [reflexivity|].
  rewrite E. reflexivity.
Qed.

(** X4. The setpoint and power commands are idempotent, a later setpoint
    replaces an earlier one of the same kind, the two manual setpoints
    commute, and sending back a value a setter has stored stores it
    again. *)
Theorem commands_compose (v v' : float64) (w : World) :
  Scram (Scram w) = Scram w /\
  PowerOff (PowerOff w) = PowerOff w /\
  PowerOn (PowerOn w) = PowerOn w /\
  SetFissionRate v (SetFissionRate v w) = SetFissionRate v w /\
  SetTurbineOutput v (SetTurbineOutput v w) = SetTurbineOutput v w /\
  SetPowerLoad v (SetPowerLoad v w) = SetPowerLoad v w /\
  SetFissionRate v' (SetFissionRate v w) = SetFissionRate v' w /\
  SetTurbineOutput v' (SetTurbineOutput v w) = SetTurbineOutput v' w /\
  SetPowerLoad v' (SetPowerLoad v w) = SetPowerLoad v' w /\
  SetFissionRate v (SetTurbineOutput v' w) = SetTurbineOutput v' (SetFissionRate v w) /\
  SetFissionRate (clamp v 0 100) w = SetFissionRate v w /\
  SetTurbineOutput (clamp v 0 100) w = SetTurbineOutput v w /\
  SetPowerLoad (max 0 v) w = SetPowerLoad v w.
Proof.
  open_command w. rewrite clamp_fixed, max_fixed.
  split. { rewrite <- Z.lor_assoc, Z.lor_diag. reflexivity. }
  split; [reflexivity|].
  split. { destruct IsPoweredOn0; fields; reflexivity. }
  repeat split; destruct IsAutoControl0; fields; reflexivity.
Qed.

Lemma scram_bit_round_trip (st : Z) :
  hasFlag st StatusScram = false ->
  Z.ldiff (Z.lor st StatusScram) StatusScram = st /\ Z.ldiff st StatusScram = st.
Proof.
  unfold StatusScram at 1. rewrite hasFlag_testbit by lia. intros Hb.
  split; apply Z.bits_inj'; intros n Hn;
    rewrite ?Z.ldiff_spec, ?Z.lor_spec; unfold StatusScram;
    rewrite Z.shiftl_1_l, Z.pow2_bits_eqb by lia;
    (destruct (Z.eqb_spec 7 n) as [E|Hne];
     [rewrite <- E, ?Hb; reflexivity|destruct (Z.testbit st n); reflexivity]).
Qed.

(** X5. Round trips: toggling auto-control twice gives the state back, and
    from a powered-on state with the Scram bit clear, Scram followed by
    PowerOn, or PowerOff followed by PowerOn, gives the state back. *)
Theorem commands_round_trip (w : World) :
  ToggleAuto (ToggleAuto w) = w /\
  (IsPoweredOn (state (reactor w)) = true ->
   hasFlag (Status (state (reactor w))) StatusScram = false ->
   PowerOn (Scram w) = w /\ PowerOn (PowerOff w) = w).
Proof.
  open_command w. split.
  - rewrite negb_involutive. reflexivity.
  - intros -> Hs. destruct (scram_bit_round_trip Status0 Hs) as [E1 E2].
    fields. rewrite E1, E2. split; reflexivity.
Qed.

Lemma commands_round_trip_witness :
  IsPoweredOn (state (reactor startWorld)) = true /\
  PowerOn (Scram startWorld) = startWorld.
Proof.
  assert (H1 : IsPoweredOn (state (reactor startWorld)) = true) by reflexivity.
  assert (H2 : hasFlag (Status (state (reactor startWorld))) StatusScram = false)
    by reflexivity.
  split; [exact H1|].
  exact (proj1 (proj2 (commands_round_trip startWorld) H1 H2)).
Defined.

(** ** The command endpoint *)

Lemma handleAction_cases (method : String.string) (body : option ActionPayload)
                         (w : World) :
  (method <> "POST"%string /\
   handleAction method body w = (StatusMethodNotAllowed, w)) \/
  (method = "POST"%string /\ body = None /\
   handleAction method body w = (StatusBadRequest, w)) \/
  (method = "POST"%string /\
   exists p, body = Some p /\
     ((opOfPayload p = None /\ ~ In (Type_ p) actionTypes /\
       handleAction method body w = (StatusBadRequest, w)) \/
      (exists o, opOfPayload p = Some o /\ In (Type_ p) actionTypes /\
         (forall delta, o <> OpAdvance delta) /\
         handleAction method body w = (StatusNoContent, exec o w)))).
Proof.
  unfold handleAction.
  destruct (String.eqb_spec method "POST"%string) as [->|Hm]; simpl negb; cbv iota.
  2: { left. split; [exact Hm|reflexivity]. }
  right. destruct body as [p|]; [right|left; repeat split].
  split; [reflexivity|]. exists p. split; [reflexivity|].
  unfold opOfPayload, actionTypes.
  repeat match goal with
  | |- context [String.eqb (Type_ p) ?s] =>
      destruct (String.eqb_spec (Type_ p) s) as [e|?];
      [right; eexists; split; [reflexivity|]; split;
       [rewrite e; simpl; tauto|split; [discriminate|reflexivity]]|]
  end.
  left. split; [reflexivity|]. split; [|reflexivity].
  simpl. intros H.
  repeat (destruct H as [H|H]; [congruence|]). exact H.
Qed.



(** X7. No request to the action endpoint takes a reactor out of the
    [kept] states, whatever the method, the body and the value sent (a NaN
    included). *)
Theorem handleAction_kept (method : String.string) (body : option ActionPayload)
                          (w : World) :
  kept w -> kept (snd (handleAction method body w)).
Proof.
  intros Hs.
  destruct (handleAction_cases method body w)
    as [[Hm E]|[(Hm & Hb & E)|(Hm & p & Hb & [(Ho & Hn & E)|(o & Ho & Hi & Hno & E)])]];
    rewrite E; simpl snd; try exact Hs.
  apply exec_kept; [|exact Hs].
  destruct o; simpl; try exact I. exfalso. eapply Hno. reflexivity.
Qed.

Lemma handleAction_kept_witness :
  kept startWorld /\
  kept (snd (handleAction "POST"%string (Some (mkPayload "setFissionRate"%string nan)) manualWorld)).
Proof.
  assert (Hs : kept startWorld) by apply initWorld_kept.
  assert (Hm : kept manualWorld) by (apply (exec_kept OpToggleAuto startWorld I), Hs).
  split; [exact Hs|].
  exact (handleAction_kept "POST"%string (Some (mkPayload "setFissionRate"%string nan)) manualWorld Hm).
Defined.

(** ** What the grid load cannot reach *)

Lemma configured_same_physics (r1 r2 : Reactor) :
  configured r1 -> configured r2 ->
  (forall T tout, turbinePower r1 T tout = turbinePower r2 T tout) /\
  (forall T tout d, shutdownCooled r1 T tout d = shutdownCooled r2 T tout d) /\
  (forall T tout d, runningCooled r1 T tout d = runningCooled r2 T tout d) /\
  HEAT_GENERATION_RATE r1 = HEAT_GENERATION_RATE r2 /\
  FUEL_CONSUMPTION_RATE r1 = FUEL_CONSUMPTION_RATE r2.
Proof.
  unfold configured, shutdownCooled, runningCooled, turbinePower.
  intros (_ & A2 & _ & A4 & _ & _ & A7 & A8 & A9 & A10 & _)
         (_ & B2 & _ & B4 & _ & _ & B7 & B8 & B9 & B10 & _).
  rewrite A2, A4, A7, A8, A9, A10, B2, B4, B7, B8, B9, B10.
  repeat split.
Qed.

Lemma physics_tick (delta : float64) (w1 w2 : World) :
  configured (reactor w1) -> configured (reactor w2) ->
  physics w1 = physics w2 ->
  IsAutoControl (state (reactor w1)) = false \/ shutdown w1 = true ->
  physics (Update delta w1) = physics (Update delta w2) /\
  PowerOutput (state (reactor (Update delta w1)))
    = PowerOutput (state (reactor (Update delta w2))).
Proof.
  intros C1 C2 Hp Hmode.
  destruct (configured_same_physics _ _ C1 C2) as (Ptp & Psc & Prc & PH & PF).
  unfold physics in Hp. cbv zeta in Hp.
  injection Hp as Eon Eau Esc ET Ef Eto Eptr Eh.
  destruct (Update_keeps delta w1) as (K1on & K1au & K1sc & _).
  destruct (Update_keeps delta w2) as (K2on & K2au & K2sc & _).
  destruct (Update_rod_pointer delta w1) as [_ R1].
  destruct (Update_rod_pointer delta w2) as [_ R2].
  cbv zeta in R1, R2.
  assert (Esh : shutdown w2 = shutdown w1)
    by (unfold shutdown; rewrite Eon, Esc; reflexivity).
  assert (Efuel : hasFuel w2 = hasFuel w1)
    by (unfold hasFuel; rewrite Eptr, Eh; reflexivity).
  unfold physics. cbv zeta. rewrite K1on, K1au, K1sc, K2on, K2au, K2sc, Eon, Eau, Esc.
  destruct (shutdown w1) eqn:Hs.
  - destruct (Update_shutdown delta w1 Hs) as (F1 & T1 & Te1 & P1 & H1).
    destruct (Update_shutdown delta w2 Esh) as (F2 & T2 & Te2 & P2 & H2).
    rewrite H1 in R1. rewrite H2 in R2.
    rewrite F1, F2, T1, T2, Te1, Te2, P1, P2, H1, H2, R1, R2.
    rewrite <- ET, <- Eto, <- Eptr, <- Eh, <- Psc, <- Ptp.
    split; reflexivity.
  - destruct Hmode as [Hman|Habs]; [|discriminate].
    assert (Hman2 : IsAutoControl (state (reactor w2)) = false) by congruence.
    destruct (Update_running delta w1 Hs) as (P1 & Te1 & M1 & _ & H1).
    destruct (Update_running delta w2 Esh) as (P2 & Te2 & M2 & _ & H2).
    destruct (M1 Hman) as [F1 T1]. destruct (M2 Hman2) as [F2 T2].
    rewrite F1, T1 in P1, Te1. rewrite F1 in H1.
    rewrite F2, T2 in P2, Te2. rewrite F2 in H2.
    rewrite Efuel, <- ET, <- Ef, <- Eto, <- PH in P2, Te2.
    rewrite Efuel, <- Ef, <- Eptr, <- Eh, <- PF in H2.
    rewrite <- Prc in Te2. rewrite <- Ptp in P2.
    assert (EH : heap (Update delta w1) = heap (Update delta w2))
      by (rewrite H1, H2; reflexivity).
    rewrite <- EH, <- Eptr in R2.
    rewrite F1, F2, T1, T2, Te1, Te2, P1, P2, R1, R2, EH, Ef, Eto.
    split; reflexivity.
Qed.

Lemma physics_ticks (delta : float64) (n : nat) (w1 w2 : World) :
  configured (reactor w1) -> configured (reactor w2) ->
  physics w1 = physics w2 ->
  IsAutoControl (state (reactor w1)) = false \/ shutdown w1 = true ->
  physics (ticks n delta w1) = physics (ticks n delta w2) /\
  ((0 < n)%nat ->
   PowerOutput (state (reactor (ticks n delta w1)))
     = PowerOutput (state (reactor (ticks n delta w2)))).
Proof.
  revert w1 w2.
  assert (Step : forall w1 w2,
            configured (reactor w1) -> configured (reactor w2) ->
            physics w1 = physics w2 ->
            IsAutoControl (state (reactor w1)) = false \/ shutdown w1 = true ->
            physics (Update delta w1) = physics (Update delta w2) /\
            PowerOutput (state (reactor (Update delta w1)))
              = PowerOutput (state (reactor (Update delta w2))) /\
            (IsAutoControl (state (reactor (Update delta w1))) = false
             \/ shutdown (Update delta w1) = true)).
  { intros w1 w2 S1 S2 Hp Hm.
    destruct (physics_tick delta w1 w2 S1 S2 Hp Hm) as [E1 E2].
    split; [exact E1|]. split; [exact E2|].
    destruct (Update_keeps delta w1) as (Kon & Kau & Ksc & _).
    unfold shutdown in *. rewrite Kon, Kau, Ksc. exact Hm. }
  induction n as [|n IH]; intros w1 w2 S1 S2 Hp Hm.
  - split; [exact Hp|]. intros H. inversion H.
  - destruct (Step w1 w2 S1 S2 Hp Hm) as (E1 & E2 & Hm').
    destruct (IH (Update delta w1) (Update delta w2)
                 (proj2 (proj2 (proj2 (Update_keeps delta w1))) S1)
                 (proj2 (proj2 (proj2 (Update_keeps delta w2))) S2) E1 Hm')
      as [I1 I2].
    simpl ticks. split; [exact I1|]. intros _.
    destruct n as [|n]; [exact E2|]. apply I2. lia.
Qed.

(** X8. Under manual control, or while shut down, the grid load and the
    random draws do not reach the plant: two worlds with the simulation
    constants that agree on the switches, the temperature, the two
    setpoints and the fuel agree on them after any number of ticks of any
    length, and on the power output as well, whatever their loads,
    grid-load sub-states and generators. *)
Theorem manual_plant_ignores_grid (delta : float64) (n : nat) (w1 w2 : World) :
  configured (reactor w1) -> configured (reactor w2) ->
  physics w1 = physics w2 ->
  IsAutoControl (state (reactor w1)) = false \/ shutdown w1 = true ->
  physics (ticks n delta w1) = physics (ticks n delta w2) /\
  ((0 < n)%nat ->
   PowerOutput (state (reactor (ticks n delta w1)))
     = PowerOutput (state (reactor (ticks n delta w2)))).
Proof. exact (physics_ticks delta n w1 w2). Qed.

Lemma manual_plant_ignores_grid_witness :
  physics manualWorld = physics (SetPowerLoad 0 manualWorld) /\
  physics (ticks 3 0.2 manualWorld) = physics (ticks 3 0.2 (SetPowerLoad 0 manualWorld)).
Proof.
  assert (S1 : configured (reactor manualWorld)) by (repeat split).
  assert (S2 : configured (reactor (SetPowerLoad 0 manualWorld))) by (repeat split).
  assert (Hp : physics manualWorld = physics (SetPowerLoad 0 manualWorld)) by reflexivity.
  assert (Hm : IsAutoControl (state (reactor manualWorld)) = false
               \/ shutdown manualWorld = true) by (left; reflexivity).
  split; [exact Hp|].
  exact (proj1 (manual_plant_ignores_grid 0.2 3 manualWorld _ S1 S2 Hp Hm)).
Defined.

(** ** A NaN temperature *)

(** X9. A NaN temperature is there to stay: whatever the state and the
    length of the tick, a tick from a NaN temperature leaves the temperature
    and the power output NaN, since neither the floor at 0 nor [min] catches
    a NaN; and with the temperature NaN no heat flag is set. *)
Theorem nan_temperature_sticks (delta : float64) (w : World) :
  is_nan (Temperature (state (reactor w))) = true ->
  let s' := state (reactor (Update delta w)) in
  is_nan (Temperature s') = true /\
  is_nan (PowerOutput s') = true /\
  (configured (reactor w) ->
     hasFlag (Status s') StatusMeltdown = false /\
     hasFlag (Status s') StatusOverheat = false /\
     hasFlag (Status s') StatusTempLow = false).
Proof.
  intros Hn. cbv zeta.
  assert (H12 : is_nan (Temperature (state (reactor (Update delta w)))) = true /\
                is_nan (PowerOutput (state (reactor (Update delta w)))) = true).
  { revert Hn. open_world w. intros Hn. run_Update_fields.
    all: unfold runAutoControlLocked in *; fields.
    all: try (exfalso;
              match goal with
              | H : (?x <? 0) = true |- _ =>
                  rewrite nan_ltb_l in H by nan_goal; discriminate H
              end).
    all: split; nan_goal. }
  destruct H12 as [H1 H2]. split; [exact H1|]. split; [exact H2|].
  intros Hc. apply (Update_reads delta w Hc). exact H1.
Qed.

Lemma nan_temperature_sticks_witness :
  let w := Update 0x1p1020 manualWorld in
  is_nan (Temperature (state (reactor w))) = true /\
  is_nan (Temperature (state (reactor (Update 0.2 w)))) = true.
Proof.
  assert (H : is_nan (Temperature (state (reactor (Update 0x1p1020 manualWorld)))) = true)
    by (vm_compute; reflexivity).
  split; [exact H|].
  exact (proj1 (nan_temperature_sticks 0.2 _ H)).
Defined.

(** ** A rate too small to burn *)

Lemma burning_idle (f delta : float64) (p : nat) (w : World) (n : nat) :
  burning f p w ->
  (Condition (load (heap w) p) >? 0) = true ->
  burnTick (fuelConsumed f delta) (Condition (load (heap w) p))
    = Condition (load (heap w) p) ->
  burning f p (ticks n delta w) /\
  Condition (load (heap (ticks n delta w)) p) = Condition (load (heap w) p).
Proof.
  intros Hb Hpos Hfix.
  induction n as [|n [IH1 IH2]]; [split; [exact Hb|reflexivity]|].
  rewrite ticks_S.
  assert (Hpos' : (Condition (load (heap (ticks n delta w)) p) >? 0) = true)
    by (rewrite IH2; exact Hpos).
  destruct (burning_step f delta p _ IH1 Hpos') as (Ec & _ & _ & Eb).
  rewrite IH2, Hfix in Ec, Eb.
  split; [|exact Ec]. apply Eb. apply ltb_leb_false. exact Hpos.
Qed.

(** X10. A fission rate above 0 can be too small to burn the rod: under
    manual control, when what one tick consumes is absorbed by the rounding
    of the subtraction, the rod keeps its condition on every tick and is
    never exhausted.  At the rate 7e-11 (which [SetFissionRate] accepts) a
    full rod in ticks of 0.2 s is such a case. *)
Theorem rate_too_small_to_burn (f delta : float64) (p : nat) (w : World) (n : nat) :
  burning f p w ->
  (Condition (load (heap w) p) >? 0) = true ->
  burnTick (fuelConsumed f delta) (Condition (load (heap w) p))
    = Condition (load (heap w) p) ->
  FuelRodPtr (state (reactor (ticks n delta w))) = Some p /\
  Condition (load (heap (ticks n delta w)) p) = Condition (load (heap w) p) /\
  burnTick (fuelConsumed 7e-11 0.2) 100 = 100 /\
  FissionRate (state (reactor (SetFissionRate 7e-11 manualWorld))) = 7e-11.
Proof.
  intros Hb Hpos Hfix.
  destruct (burning_idle f delta p w n Hb Hpos Hfix) as [(_ & _ & _ & _ & E & _) Ec].
  split; [exact E|]. split; [exact Ec|]. split; reflexivity.
Qed.

Lemma rate_too_small_to_burn_witness :
  burning 7e-11 0 (SetFissionRate 7e-11 manualWorld) /\
  FuelRodPtr (state (reactor (ticks 1000 0.2 (SetFissionRate 7e-11 manualWorld))))
    = Some 0%nat /\
  Condition (load (heap (ticks 1000 0.2 (SetFissionRate 7e-11 manualWorld))) 0) = 100.
Proof.
  assert (Hb : burning 7e-11 0 (SetFissionRate 7e-11 manualWorld)).
  { unfold burning. split; [repeat split|]. repeat split. simpl. lia. }
  split; [exact Hb|].
  destruct (rate_too_small_to_burn 7e-11 0.2 0 _ 1000 Hb eq_refl eq_refl)
    as (H1 & H2 & _).
  split; [exact H1|exact H2].
Defined.

(** ** The base load *)

Lemma SFsub_num_r (x : spec_float) (s : bool) (m : positive) (e : Z) :
  is_num_sf x = true -> is_num_sf (SFsub prec emax x (S754_finite s m e)) = true.
Proof.
  destruct x; simpl; try reflexivity; try discriminate.
  intros _. apply binary_normalize_num.
Qed.

Lemma unit_draw_finite (u : float64) :
  (0 <=? u) = true -> (u <? 1) = true -> is_finite_sf (Prim2SF u) = true.
Proof.
  intros H0 H1. apply (between_finite 0 1); [reflexivity|reflexivity|].
  split; [exact H0|apply ltb_leb, H1].
Qed.

Lemma base_step_num (b u : float64) :
  between 800 2100 b -> (0 <=? u) = true -> (u <? 1) = true ->
  is_nan (b + (u * 24 - 12)) = false.
Proof.
  intros Hb H0 H1. apply is_num_not_nan.
  rewrite add_spec, sub_spec, mul_spec.
  apply SFadd_num; [apply (between_finite 800 2100); [reflexivity|reflexivity|exact Hb]|].
  let v := eval vm_compute in (Prim2SF 12) in change (Prim2SF 12) with v.
  apply SFsub_num_r.
  let v := eval vm_compute in (Prim2SF 24) in change (Prim2SF 24) with v.
  apply SFmul_num.
  pose proof (unit_draw_finite u H0 H1) as Hf.
  destruct (Prim2SF u); try reflexivity; discriminate.
Qed.

Lemma updateGridLoad_baseLoad (delta : float64) (r : Reactor) (g : Rng) :
  baseLoad (fst (updateGridLoad delta r g))
    = clamp (baseLoad r + (draws g (cursor g) * 24 - 12)) 800 2100 /\
  draws (snd (updateGridLoad delta r g)) = draws g.
Proof.
  destruct r as [s]; destruct s. unfold updateGridLoad; fields.
  destruct isSpiking0; fields; [split_if|split_if]; split; reflexivity.
Qed.

Lemma Update_baseLoad_inside (delta : float64) (w : World) :
  inside 800 2100 (baseLoad (reactor (Update delta w))).
Proof.
  destruct (Update_grid delta w) as (G1 & _).
  destruct (updateGridLoad_baseLoad delta (reactor w) (rand w)) as [E1 _].
  rewrite G1, E1. apply clamp_not_outside; reflexivity.
Qed.

Lemma Update_baseLoad (delta : float64) (w : World) :
  unit_draws (rand w) -> between 800 2100 (baseLoad (reactor w)) ->
  between 800 2100 (baseLoad (reactor (Update delta w))) /\
  unit_draws (rand (Update delta w)).
Proof.
  intros Hu Hb.
  destruct (Update_grid delta w) as (G1 & _ & _ & _ & _ & _ & _ & G8).
  destruct (updateGridLoad_baseLoad delta (reactor w) (rand w)) as [E1 E2].
  rewrite G1, G8, E1. split.
  - destruct (Hu (cursor (rand w))) as [H0 H1].
    apply clamp_between; [|split; reflexivity|split; reflexivity].
    apply base_step_num; assumption.
  - intros n. rewrite E2. apply Hu.
Qed.

(** X11. The base load of the grid stays in its band: a tick never leaves
    it a number outside [800, 2100], and along the ticks of a process whose
    draws lie in [0,1) it is a number in [800, 2100] at every tick. *)
Theorem baseLoad_band (delta : float64) (g : Rng) (n : nat) :
  unit_draws g ->
  between 800 2100 (baseLoad (reactor (ticks n delta (initWorld g)))) /\
  (forall w, inside 800 2100 (baseLoad (reactor (Update delta w)))).
Proof.
  intros Hu. split.
  - assert (H : between 800 2100 (baseLoad (reactor (ticks n delta (initWorld g)))) /\
                unit_draws (rand (ticks n delta (initWorld g)))).
    { induction n as [|n [IH1 IH2]]; [split; [split; reflexivity|exact Hu]|].
      rewrite ticks_S. exact (Update_baseLoad delta _ IH2 IH1). }
    exact (proj1 H).
  - intros w. exact (Update_baseLoad_inside delta w).
Qed.

Lemma baseLoad_band_witness :
  unit_draws midRng /\
  between 800 2100 (baseLoad (reactor (ticks 5 0.2 (initWorld midRng)))).
Proof.
  assert (Hu : unit_draws midRng) by (intros n; split; reflexivity).
  split; [exact Hu|].
  exact (proj1 (baseLoad_band 0.2 midRng 5 Hu)).
Defined.

(** ** The frontend *)

Lemma pushHistory_window (M : nat) (S : list Sample) (s : Sample) :
  (0 < M)%nat ->
  let h := skipn (length S - M) S ++ [s] in
  (if (M <? length h)%nat then tl h else h)
    = skipn (length (S ++ [s]) - M) (S ++ [s]).
Proof.
  intros HM. cbv zeta.
  rewrite !length_app, length_skipn. simpl length.
  destruct (Nat.ltb_spec M (length S - (length S - M) + 1)) as [H|H].
  - assert (HS : (M <= length S)%nat) by lia.
    replace (length S + 1 - M)%nat with (Datatypes.S (length S - M)) by lia.
    rewrite skipn_app.
    replace (Datatypes.S (length S - M) - length S)%nat with 0%nat by lia.
    simpl skipn at 2.
    assert (Hne : (length S - M < length S)%nat) by lia.
    revert Hne. generalize (length S - M)%nat. clear. intros k.
    revert k. induction S as [|a S IH]; intros k Hk; simpl in *; [lia|].
    destruct k as [|k]; [reflexivity|].
    simpl. apply IH. lia.
  - replace (length S - M)%nat with 0%nat by lia.
    replace (length S + 1 - M)%nat with 0%nat by lia. reflexivity.
Qed.

(** X12. The graph history of the frontend is a sliding window: after any
    sequence of states it holds the samples of the last [MAX_HISTORY] = 200
    of them, oldest first, so it never grows beyond 200 entries; a missing
    state adds nothing. *)
Theorem history_window (sts : list ReactorState) :
  let h := fold_left pushHistory (map Some sts) [] in
  h = skipn (length sts - MAX_HISTORY) (map sampleOf sts) /\
  length h = Nat.min (length sts) MAX_HISTORY /\
  (forall h0, pushHistory h0 None = h0).
Proof.
  cbv zeta.
  assert (E : fold_left pushHistory (map Some sts) []
              = skipn (length sts - MAX_HISTORY) (map sampleOf sts)).
  { induction sts as [|st sts IH] using rev_ind; [reflexivity|].
    rewrite map_app, fold_left_app, IH. simpl fold_left.
    unfold pushHistory. fold (sampleOf st).
    change (map Some [st]) with [Some st].
    pose proof (pushHistory_window MAX_HISTORY (map sampleOf sts) (sampleOf st)
                  ltac:(unfold MAX_HISTORY; lia)) as W.
    cbv zeta in W. rewrite length_map in W. rewrite W.
    rewrite map_app, !length_app, length_map. reflexivity. }
  split; [exact E|]. split; [|reflexivity].
  rewrite E, length_skipn, length_map. lia.
Qed.

Lemma Update_lights (delta : float64) (w : World) :
  configured (reactor w) ->
  let st := Some (Snapshot (Update delta w)) in
  let T := Temperature (Snapshot (Update delta w)) in
  isCritHeat st = (T >=? 600) /\
  shake st = (T >=? 900) /\
  (shake st = true -> isCritHeat st = true) /\
  (is_nan T = true -> isCritHeat st = false).
Proof.
  intros Hc. cbv zeta. unfold isCritHeat, shake, hasStatus, Snapshot.
  fold (hasFlag (Status (state (reactor (Update delta w)))) StatusOverheat).
  fold (hasFlag (Status (state (reactor (Update delta w)))) StatusMeltdown).
  destruct (Update_reads delta w Hc) as (_ & R1 & R2 & _).
  rewrite R1, R2. unfold geb.
  set (T := Temperature (state (reactor (Update delta w)))).
  assert (H96 : (900 <=? T) = true -> (600 <=? T) = true)
    by (intros H; apply (leb_trans 600 900 T); [reflexivity|exact H]).
  split; [|split; [reflexivity|split]].
  - destruct (900 <=? T) eqn:E9.
    + rewrite (H96 eq_refl). reflexivity.
    + rewrite andb_true_r, orb_false_r. reflexivity.
  - intros H. rewrite H, (H96 H). reflexivity.
  - intros Hn. rewrite !(nan_leb_r _ _ Hn). reflexivity.
Qed.


